(** * stock-predictor: the forecasting pipeline of [main.py]

    A shallow embedding of the Streamlit application [main.py]: the symbol
    catalogue ([stocks_dictionary], [stocks]), the horizon derived from the
    slider, the preparation of the training frame, the SARIMAX model that is
    fitted, and the assembly of the forecast frame.

    pandas, statsmodels, yfinance and Streamlit are external to the
    repository.  Their part that is pure bookkeeping (column selection,
    positional lookup, [date_range], the [DataFrame] constructor, the time
    indices of [get_forecast]) is written out; the numerical estimation of
    statsmodels is a parameter of the development ([statsmodels] below).  *)

From Stdlib Require Import ZArith Lia Ascii String.
From stdpp Require Import base option list gmap strings sorting.

Local Open Scope Z_scope.

(** ** Python exceptions and the error monad

    The exception classes that the modelled lines can raise.  An exception
    aborts [main]: nothing after the raising statement is executed. *)

Inductive exn : Type :=
  | IndexError          (* positional indexer out of bounds *)
  | KeyError            (* missing dictionary key *)
  | ValueError          (* pandas / statsmodels argument checks *)
  | OutOfBoundsDatetime (* a date outside what a Timestamp can hold *)
  | LibraryError (name : string).  (* any other exception of a library *)

Inductive result (A : Type) : Type :=
  | Ok (a : A)
  | Raise (e : exn).
Arguments Ok {A} a.
Arguments Raise {A} e.

Global Instance result_ret : MRet result := λ A a, Ok a.
Global Instance result_bind : MBind result := λ A B k r,
  match r with
  | Ok a => k a
  | Raise e => Raise e
  end.

Definition is_Ok {A : Type} (r : result A) : Prop := ∃ a, r = Ok a.
Definition raises {A : Type} (r : result A) : Prop := ∃ e, r = Raise e.

(** ** Calendar dates

    A date is a proleptic Gregorian day number, the value of
    [Timestamp.toordinal()]: day 1 is 0001-01-01.  Rows are daily, so the
    model works at day resolution.  The conversion from civil dates
    follows [datetime]'s [_ymd2ord]. *)

Definition date : Type := Z.

Definition is_leap (y : Z) : bool :=
  (y mod 4 =? 0) && (negb (y mod 100 =? 0) || (y mod 400 =? 0)).

Definition days_before_year (y : Z) : Z :=
  let y' := y - 1 in y' * 365 + y' / 4 - y' / 100 + y' / 400.

(** [_DAYS_IN_MONTH] and [_DAYS_BEFORE_MONTH]: the tables of a common
    (non-leap) year. *)
Definition DAYS_IN_MONTH (m : Z) : Z :=
  if m =? 2 then 28
  else if (m =? 4) || (m =? 6) || (m =? 9) || (m =? 11) then 30
  else 31.

Definition DAYS_BEFORE_MONTH (m : Z) : Z :=
  foldr (λ k acc, DAYS_IN_MONTH (Z.of_nat k) + acc) 0
        (seq 1 (Z.to_nat (m - 1))).

Definition days_in_month (y m : Z) : Z :=
  if (m =? 2) && is_leap y then 29 else DAYS_IN_MONTH m.

Definition days_before_month (y m : Z) : Z :=
  DAYS_BEFORE_MONTH m + (if (2 <? m) && is_leap y then 1 else 0).

Definition ymd2ord (y m d : Z) : date :=
  days_before_year y + days_before_month y m + d.

(** A pandas [Timestamp] counts nanoseconds in 64 bits: the days it can
    hold run from 1677-09-22 to 2262-04-11. *)
Definition Timestamp_min : date := ymd2ord 1677 9 22.
Definition Timestamp_max : date := ymd2ord 2262 4 11.

Definition is_Timestamp (d : date) : Prop :=
  Timestamp_min ≤ d ≤ Timestamp_max.

(** Civil dates [(year, month, day)]. *)
Definition civil : Type := Z * Z * Z.

Definition ord_of_civil (c : civil) : date :=
  let '(y, m, d) := c in ymd2ord y m d.

Definition valid_civil (c : civil) : Prop :=
  let '(y, m, d) := c in 1 ≤ y ∧ 1 ≤ m ≤ 12 ∧ 1 ≤ d ≤ days_in_month y m.

(** The day after a civil date, by the calendar's own rules. *)
Definition next_day (c : civil) : civil :=
  let '(y, m, d) := c in
  if d <? days_in_month y m then (y, m, d + 1)
  else if m <? 12 then (y, m + 1, 1)
  else (y + 1, 1, 1).

(** [n] daily steps from [start] on. *)
Definition days_from (start : date) (n : nat) : list date :=
  map (λ i, start + Z.of_nat i) (seq 0 n).

(** Each entry is the calendar day after the entry before it. *)
Definition consecutive_days (l : list date) : Prop :=
  ∀ i a b, l !! i = Some a → l !! S i = Some b → b = a + 1.

(** ** The download window (lines 22-23)

    [START] is fixed; [TODAY] is [date.today()] in the form
    [YYYY-MM-DD], read when the script runs, and comes in from
    outside. *)
Definition START : string := "2012-01-01".

(** ** The symbol catalogue (lines 26-32) *)

Definition unsortedStocksCodes : list string :=
  ["JNJ"; "GOOG"; "AAPL"; "BRK-A"; "AMZN"; "MSFT"; "JPM"; "NFLX"; "META";
   "BAC"; "GME"; "MCD"; "KO"]%string.

Definition unsortedStocksList : list string :=
  ["Johnson & Johnson"; "Alphabet Inc Class C"; "Apple Inc";
   "Berkshire Hathaway Inc. Class A"; "Amazon.com, Inc.";
   "Microsoft Corporation"; "JPMorgan Chase & Co"; "Netflix Inc";
   "Meta Platforms Inc"; "Bank of America Corp"; "GameStop Corp.";
   "McDonald's Corp"; "Coca-Cola Co"]%string.

(** [dict(pairs)]: the pairs are inserted from left to right, a later pair
    overwrites an earlier one with the same key. *)
Definition dict (pairs : list (string * string)) : gmap string string :=
  foldl (λ m kv, <[kv.1 := kv.2]> m) ∅ pairs.

(** [d[k]]: a missing key raises [KeyError]. *)
Definition getitem (d : gmap string string) (k : string) : result string :=
  match d !! k with
  | Some v => Ok v
  | None => Raise KeyError
  end.

Definition stocks_dictionary : gmap string string :=
  dict (zip unsortedStocksList unsortedStocksCodes).

(** Python compares [str] values by code point, lexicographically; on the
    ASCII names of the catalogue this is [String.leb]. *)
Definition str_le (s1 s2 : string) : Prop := String.leb s1 s2 = true.

Global Instance str_le_dec : RelDecision str_le :=
  λ s1 s2, decide (String.leb s1 s2 = true).

Definition sorted (l : list string) : list string := merge_sort str_le l.

Definition stocks : list string := sorted unsortedStocksList.

(** ** The widgets (lines 92-98)

    [st.selectbox(label, options)] returns the option the user picked; the
    pick is a position in [options], and the widget offers no other.
    [st.slider(label, 1, 10)] returns the integer the user set, which the
    widget keeps between its two bounds. *)

Definition selectbox (options : list string) (pick : nat) : result string :=
  match options !! pick with
  | Some s => Ok s
  | None => Raise IndexError
  end.

Definition slider_min : Z := 1.
Definition slider_max : Z := 10.

Definition in_slider (n_years : Z) : Prop := slider_min ≤ n_years ≤ slider_max.

(** [period = n_years * 365] *)
Definition period (n_years : Z) : Z := n_years * 365.

(** ** The forecasting part of [main] (lines 131-149) *)

Section Pipeline.
(** Prices are [float64] values.  The modelled lines only move them
    around, so their type stays abstract. *)
Context {price : Type}.

(** A row of the frame returned by [load_stock_data]: the columns of
    [yf.download] after [reset_index]. *)
Record Row : Type := mkRow {
  Date : date;
  Open : price;
  High : price;
  Low : price;
  Close : price;
  AdjClose : price;
  Volume : Z
}.

(** A row of [df_train], with the renamed columns. *)
Record TrainRow : Type := mkTrainRow { ds : date; y : price }.

(** Lines 131-132: [stock_data[['Date', 'Close']]] followed by
    [rename(columns={'Date': 'ds', 'Close': 'y'})].  Line 136, the
    differencing of [y], is commented out in the source. *)
Definition prepare (stock_data : list Row) : list TrainRow :=
  map (λ r, {| ds := Date r; y := Close r |}) stock_data.

(** *** statsmodels *)

(** The model object: the observations and the specification. *)
Record SARIMAX : Type := mkSARIMAX {
  endog : list price;
  order : nat * nat * nat;
  seasonal_order : nat * nat * nat * nat
}.

(** What maximum-likelihood estimation hands back: the parameters, the
    [converged] entry of [mle_retvals], and the predicted mean of the
    observation at every time index. *)
Record Estimate : Type := mkEstimate {
  params : list price;
  converged : bool;
  predicted_mean_at : nat → price
}.

Record MLEResults : Type := mkMLEResults {
  res_model : SARIMAX;
  res_estimate : Estimate
}.

(** The numerical part of statsmodels: the estimation either raises or
    returns an estimate. *)
Definition statsmodels : Type := SARIMAX → result Estimate.

(** [model.fit(disp=...)]: [disp] only switches the optimiser's console
    output. *)
Definition fit (sm : statsmodels) (model : SARIMAX) (disp : bool)
  : result MLEResults :=
  e ← sm model; Ok {| res_model := model; res_estimate := e |}.

Definition nobs (results : MLEResults) : nat :=
  length (endog (res_model results)).

(** [results.get_forecast(steps).predicted_mean]: the prediction from
    [start = nobs] to [end = nobs + steps - 1], a Series labelled by
    these time indices.  A negative [end] is no index ([KeyError]), an
    [end] before [start] is rejected ([ValueError]); the slider never asks
    for either. *)
Definition get_forecast (results : MLEResults) (steps : Z)
  : result (list (nat * price)) :=
  if 0 <? steps
  then Ok (map (λ t, (t, predicted_mean_at (res_estimate results) t))
               (seq (nobs results) (Z.to_nat steps)))
  else if Z.of_nat (nobs results) + steps - 1 <? 0 then Raise KeyError
  else Raise ValueError.

(** *** pandas *)

(** [s.iloc[-1]] *)
Definition iloc_last {A : Type} (s : list A) : result A :=
  match last s with
  | Some x => Ok x
  | None => Raise IndexError
  end.

(** [pd.DateOffset(n)]: [n] calendar days. *)
Definition DateOffset (n : Z) : Z := n.

(** [timestamp + offset]: the sum must be a [Timestamp] again. *)
Definition timestamp_add (ts : date) (offset : Z) : result date :=
  if bool_decide (is_Timestamp (ts + offset)) then Ok (ts + offset)
  else Raise OutOfBoundsDatetime.

(** [pd.date_range(start=..., periods=..., freq='D')]: [periods] daily
    steps from [start] on.  A negative count is rejected, and so is a
    range whose last day a [Timestamp] cannot hold. *)
Definition date_range (start : date) (periods : Z) : result (list date) :=
  if periods <? 0 then Raise ValueError
  else if bool_decide (Timestamp_min ≤ start
                       ∧ start + periods - 1 ≤ Timestamp_max)
  then Ok (days_from start (Z.to_nat periods))
  else Raise OutOfBoundsDatetime.

(** A row of [forecast_dataframe]: its index label and the two columns. *)
Record ForecastRow : Type := mkForecastRow {
  f_label : nat;
  f_ds : date;
  f_y : price
}.

(** [pd.DataFrame({'ds': index, 'y': series})]: the frame takes the index
    of the Series; the array given for [ds] is laid against it by
    position and must have its length. *)
Definition DataFrame (ds_values : list date) (y_series : list (nat * price))
  : result (list ForecastRow) :=
  if decide (length ds_values = length y_series)
  then Ok (zip_with (λ d lv, {| f_label := lv.1; f_ds := d; f_y := lv.2 |})
                    ds_values y_series)
  else Raise ValueError.

(** Line 148, from the last observed date on. *)
Definition forecast_index (last_ds : date) (horizon : Z)
  : result (list date) :=
  start ← timestamp_add last_ds (DateOffset 1);
  date_range start horizon.

(** Lines 148-149, from the last observed date on. *)
Definition assemble (last_ds : date) (horizon : Z)
    (forecast_values : list (nat * price)) : result (list ForecastRow) :=
  forecast_index ← forecast_index last_ds horizon;
  DataFrame forecast_index forecast_values.

(** Line 139. *)
Definition model_of (df_train : list TrainRow) : SARIMAX :=
  {| endog := map y df_train;
     order := (1, 1, 1)%nat;
     seasonal_order := (1, 1, 1, 12)%nat |}.

(** Lines 139-149, from [df_train] and [period] to
    [forecast_dataframe]. *)
Definition forecast_frame (sm : statsmodels) (df_train : list TrainRow)
    (period : Z) : result (list ForecastRow) :=
  let model := model_of df_train in
  results ← fit sm model false;
  forecast_values ← get_forecast results period;
  last_ds ← iloc_last (map ds df_train);
  assemble last_ds period forecast_values.

(** Lines 131-149. *)
Definition run (sm : statsmodels) (stock_data : list Row) (period : Z)
  : result (list TrainRow * list ForecastRow) :=
  let df_train := prepare stock_data in
  forecast_dataframe ← forecast_frame sm df_train period;
  Ok (df_train, forecast_dataframe).

(** *** [load_stock_data] and [main] *)

(** [@st.cache] memoises [load_stock_data] under its argument together
    with the values of the globals the function reads, [START] and
    [TODAY]; the script computes [TODAY] afresh on every run.  The data
    provider is asked with the same three values. *)
Definition load_stock_data (TODAY : string)
    (download : string → string → string → list Row)
    (cache : gmap (string * string * string) (list Row))
    (stock_code : string)
  : gmap (string * string * string) (list Row) * list Row :=
  match cache !! (stock_code, START, TODAY) with
  | Some data => (cache, data)
  | None => let data := download stock_code START TODAY in
            (<[(stock_code, START, TODAY) := data]> cache, data)
  end.

(** [main], without the calls that only render: the day of the run, the
    user's pick and slider value come in, the cache is threaded through,
    and the observed and forecast frames (or the exception) come out. *)
Definition main (TODAY : string)
    (download : string → string → string → list Row) (sm : statsmodels)
    (cache : gmap (string * string * string) (list Row))
    (pick : nat) (n_years : Z)
  : gmap (string * string * string) (list Row)
    * result (list TrainRow * list ForecastRow) :=
  match
    (dropdown_box_selection ← selectbox stocks pick;
     getitem stocks_dictionary dropdown_box_selection)
  with
  | Raise e => (cache, Raise e)
  | Ok dropdown_box_selection_stock_code =>
      let period := period n_years in
      let '(cache', stock_data) :=
        load_stock_data TODAY download cache
          dropdown_box_selection_stock_code in
      (cache', run sm stock_data period)
  end.
End Pipeline.

Arguments Row : clear implicits.
Arguments TrainRow : clear implicits.
Arguments ForecastRow : clear implicits.
Arguments SARIMAX : clear implicits.
Arguments Estimate : clear implicits.
Arguments MLEResults : clear implicits.
Arguments statsmodels : clear implicits.

(** ** The page (lines 54-167)

    A run of the script builds the page from top to bottom: every [st.*]
    call appends one element, and a call on an element handle
    ([stock_data_state.text(...)]) replaces that element where it stands.
    Streamlit adds elements of its own: whatever [@st.cache] shows around
    a call of the cached function (a spinner, a notice; which ones depends
    on the Streamlit release, so they are a parameter), and a box with the
    exception when the script ends in one.  The page starts empty on every
    run; the cache of [load_stock_data] outlives the run. *)

Definition LF : string := String "010"%char "".

Section Page.
Context {price : Type}.

(** [go.Scatter(x=..., y=..., name=..., mode=..., line=dict(dash=...))] *)
Record Scatter : Type := mkScatter {
  sc_x : list date;
  sc_y : list price;
  sc_name : string;
  sc_mode : option string;
  sc_dash : option string
}.

(** [go.Figure()] with its traces and the one layout entry the script
    sets. *)
Record Figure : Type := mkFigure {
  fig_data : list Scatter;
  xaxis_rangeslider_visible : bool
}.

Definition empty_figure : Figure :=
  {| fig_data := []; xaxis_rangeslider_visible := false |}.

Definition add_trace (figure : Figure) (trace : Scatter) : Figure :=
  {| fig_data := fig_data figure ++ [trace];
     xaxis_rangeslider_visible := xaxis_rangeslider_visible figure |}.

Definition layout_update (figure : Figure) (rangeslider : bool) : Figure :=
  {| fig_data := fig_data figure;
     xaxis_rangeslider_visible := rangeslider |}.

Inductive element : Type :=
  | Title (body : string)
  | Subheader (body : string)
  | Markdown (body : string)
  | Text (body : string)
  | Selectbox (label : string) (options : list string)
  | Slider (label : string) (min_value max_value : Z)
  | WriteStr (body : string)
  | WriteStock (rows : list (Row price))
  | WriteForecast (rows : list (ForecastRow price))
  | PlotlyChart (figure : Figure)
  | Notice (body : string)          (* shown by [@st.cache] *)
  | ExceptionBox (e : exn).         (* shown for an uncaught exception *)

Record World : Type := mkWorld {
  st_cache : gmap (string * string * string) (list (Row price));
  screen : list element
}.

(** A step of the script: it changes the world and returns a value or
    raises.  What was put on the page before an exception stays there. *)
Definition ui (A : Type) : Type := World → World * result A.

Definition ui_ret {A : Type} (a : A) : ui A := λ w, (w, Ok a).

Definition ui_bind {A B : Type} (m : ui A) (k : A → ui B) : ui B := λ w,
  match m w with
  | (w', Ok a) => k a w'
  | (w', Raise e) => (w', Raise e)
  end.

Global Instance ui_mret : MRet ui := @ui_ret.
Global Instance ui_mbind : MBind ui := λ A B k m, ui_bind m k.

Definition lift {A : Type} (r : result A) : ui A := λ w, (w, r).

(** An [st.*] call: the element goes to the end of the page; its position
    is the handle. *)
Definition emit (e : element) : ui nat := λ w,
  ({| st_cache := st_cache w; screen := screen w ++ [e] |},
   Ok (length (screen w))).

(** [handle.text(s)] *)
Definition handle_text (handle : nat) (s : string) : ui unit := λ w,
  ({| st_cache := st_cache w; screen := <[handle := Text s]> (screen w) |},
   Ok ()).

(** [for i in range(n): body] *)
Fixpoint for_range (n : nat) (body : ui nat) : ui unit :=
  match n with
  | O => mret ()
  | S n' => _ ← body; for_range n' body
  end.

(** The cached [load_stock_data] as a step.  [notes] is what the
    decorator shows, given whether the call is answered from the cache. *)
Definition load_step (TODAY : string) (notes : bool → list string)
    (download : string → string → string → list (Row price))
    (stock_code : string) : ui (list (Row price)) := λ w,
  let hit :=
    bool_decide (is_Some (st_cache w !! (stock_code, START, TODAY))) in
  let '(cache', data) :=
    load_stock_data TODAY download (st_cache w) stock_code in
  ({| st_cache := cache';
      screen := screen w ++ map Notice (notes hit) |}, Ok data).

(** [df.head()] and [df.tail()]: the first and the last five rows. *)
Definition head5 {A : Type} (df : list A) : list A := take 5 df.
Definition tail5 {A : Type} (df : list A) : list A :=
  drop (length df - 5) df.

(** [plot_data] (lines 54-71). *)
Definition plot_figure (stock_data : list (Row price)) : Figure :=
  let figure := empty_figure in
  let figure := add_trace figure
    {| sc_x := map Date stock_data; sc_y := map Open stock_data;
       sc_name := "Open Price"; sc_mode := None; sc_dash := None |} in
  let figure := add_trace figure
    {| sc_x := map Date stock_data; sc_y := map Close stock_data;
       sc_name := "Closing Price"; sc_mode := None; sc_dash := None |} in
  layout_update figure true.

Definition plot_data (stock_data : list (Row price)) : ui unit :=
  _ ← emit (Subheader "Plotting Scatter Plots");
  _ ← emit (PlotlyChart (plot_figure stock_data));
  mret ().

(** [figure1] (lines 160-162). *)
Definition figure1 (df_train : list (TrainRow price))
    (forecast_dataframe : list (ForecastRow price)) : Figure :=
  let figure := empty_figure in
  let figure := add_trace figure
    {| sc_x := map ds df_train; sc_y := map y df_train;
       sc_name := "Observed"; sc_mode := Some "lines"%string;
       sc_dash := None |} in
  add_trace figure
    {| sc_x := map f_ds forecast_dataframe;
       sc_y := map f_y forecast_dataframe;
       sc_name := "Forecast"; sc_mode := Some "lines"%string;
       sc_dash := Some "dash"%string |}.

Definition markdown_text : string :=
  LF ++ "    **Source Code:** [https://github.com/g4ze/Stock-Prediction-Web-App](https://github.com/g4ze/stock-predictor)."
  ++ LF ++ "    "
  ++ LF ++ "    **Instructions-**"
  ++ LF ++ "    * Select a Stock"
  ++ LF ++ "    * Select the number of years for prediction"
  ++ LF ++ "    * Wait for the forecast to happen!"
  ++ LF ++ "    ".

Definition quoted (s : string) : string := "'" ++ s ++ "'".

(** The texts of the two placeholders. *)
Definition loading_text (selection : string) : string :=
  "Loading data for " ++ selection ++ "...".
Definition loaded_text (selection : string) : string :=
  "Data Loaded for " ++ selection ++ "!".
Definition forecasting_text (selection : string) : string :=
  "Forecasting data for " ++ quoted selection ++ "...".
Definition done_text (selection : string) : string :=
  "Forecasting done for " ++ quoted selection ++ "!".

(** [main] (lines 74-167), statement by statement. *)
Definition main_page (TODAY : string) (notes : bool → list string)
    (download : string → string → string → list (Row price))
    (sm : statsmodels price) (pick : nat) (n_years : Z)
  : ui (list (TrainRow price) * list (ForecastRow price)) :=
  _ ← emit (Title "The Stock Forecast App");
  _ ← emit (Subheader ("A Web Application for Stock Forecast" ++ LF));
  _ ← emit (Markdown markdown_text);
  _ ← for_range 3 (emit (Text ""));
  _ ← emit (Selectbox (LF ++ "Select a stock for prediction" ++ LF) stocks);
  dropdown_box_selection ← lift (selectbox stocks pick);
  dropdown_box_selection_stock_code ←
    lift (getitem stocks_dictionary dropdown_box_selection);
  _ ← emit (Slider (LF ++ "Years of prediction") slider_min slider_max);
  let period := period n_years in
  _ ← for_range 3 (emit (Text ""));
  stock_data_state ← emit (Text (loading_text dropdown_box_selection));
  stock_data ←
    load_step TODAY notes download dropdown_box_selection_stock_code;
  _ ← handle_text stock_data_state (loaded_text dropdown_box_selection);
  _ ← emit (Subheader (LF ++ "Displaying first 5 rows for the "
                       ++ quoted dropdown_box_selection ++ " Stock Data"));
  _ ← emit (WriteStock (head5 stock_data));
  _ ← emit (Subheader (LF ++ "Displaying last 5 rows for the "
                       ++ quoted dropdown_box_selection ++ " Stock Data"));
  _ ← emit (WriteStock (tail5 stock_data));
  _ ← plot_data stock_data;
  forecast_state ← emit (Text (forecasting_text dropdown_box_selection));
  let df_train := prepare stock_data in
  forecast_dataframe ← lift (forecast_frame sm df_train period);
  _ ← emit (Subheader (LF ++ "Forecast Data for "
                       ++ quoted dropdown_box_selection ++ " Stock Data"));
  _ ← emit (WriteForecast (tail5 forecast_dataframe));
  _ ← emit (Text "");
  _ ← emit (Subheader (LF ++ LF ++ LF ++ "Plotting Forecast Data"));
  _ ← emit (WriteStr "ds here means datestamp and y is the stock price");
  _ ← emit (PlotlyChart (figure1 df_train forecast_dataframe));
  _ ← handle_text forecast_state (done_text dropdown_box_selection);
  mret (df_train, forecast_dataframe).

(** A run of the script on a cache: the page starts empty, and an
    exception that leaves [main] is shown at the end of the page. *)
Definition run_script (TODAY : string) (notes : bool → list string)
    (download : string → string → string → list (Row price))
    (sm : statsmodels price)
    (cache : gmap (string * string * string) (list (Row price)))
    (pick : nat) (n_years : Z)
  : World * result (list (TrainRow price) * list (ForecastRow price)) :=
  match main_page TODAY notes download sm pick n_years
          {| st_cache := cache; screen := [] |} with
  | (w, Ok frames) => (w, Ok frames)
  | (w, Raise e) =>
      ({| st_cache := st_cache w; screen := screen w ++ [ExceptionBox e] |},
       Raise e)
  end.

(** The page as a run leaves it.  [page_top] is what stands above the
    forecast placeholder once the data are loaded, [page_forecast] what
    follows the placeholder after a successful forecast. *)
Definition page_top (selection : string) (notes : list string)
    (stock_data : list (Row price)) : list element :=
  [ Title "The Stock Forecast App";
    Subheader ("A Web Application for Stock Forecast" ++ LF);
    Markdown markdown_text;
    Text ""; Text ""; Text "";
    Selectbox (LF ++ "Select a stock for prediction" ++ LF) stocks;
    Slider (LF ++ "Years of prediction") slider_min slider_max;
    Text ""; Text ""; Text "";
    Text (loaded_text selection) ]
  ++ map Notice notes ++
  [ Subheader (LF ++ "Displaying first 5 rows for the "
               ++ quoted selection ++ " Stock Data");
    WriteStock (head5 stock_data);
    Subheader (LF ++ "Displaying last 5 rows for the "
               ++ quoted selection ++ " Stock Data");
    WriteStock (tail5 stock_data);
    Subheader "Plotting Scatter Plots";
    PlotlyChart (plot_figure stock_data) ].

Definition page_forecast (selection : string)
    (df_train : list (TrainRow price))
    (forecast_dataframe : list (ForecastRow price)) : list element :=
  [ Subheader (LF ++ "Forecast Data for " ++ quoted selection
               ++ " Stock Data");
    WriteForecast (tail5 forecast_dataframe);
    Text "";
    Subheader (LF ++ LF ++ LF ++ "Plotting Forecast Data");
    WriteStr "ds here means datestamp and y is the stock price";
    PlotlyChart (figure1 df_train forecast_dataframe) ].

End Page.

Arguments Scatter : clear implicits.
Arguments Figure : clear implicits.
Arguments element : clear implicits.
Arguments World : clear implicits.

(** ** Sample data

    A month of daily rows and a few stand-ins for the estimator, used to
    run the definitions on concrete inputs.  Sample prices are integers. *)

Definition sample_row (d : date) (close : Z) : Row Z :=
  {| Date := d; Open := close - 1; High := close + 2; Low := close - 2;
     Close := close; AdjClose := close; Volume := 1000 |}.

(** 2020-01-01 .. 2020-01-31, 31 rows. *)
Definition january_2020 : list (Row Z) :=
  map (λ i, sample_row (ymd2ord 2020 1 1 + Z.of_nat i) (100 + Z.of_nat i))
      (seq 0 31).

(** An estimator that accepts every series, reports convergence and
    predicts the last observation for every future period. *)
Definition last_value_sm : statsmodels Z := λ model,
  Ok {| params := []; converged := true;
        predicted_mean_at := λ _, default 0 (last (endog model)) |}.

(** The same, except that the optimiser reports that it did not
    converge. *)
Definition stalled_sm : statsmodels Z := λ model,
  Ok {| params := []; converged := false;
        predicted_mean_at := λ _, default 0 (last (endog model)) |}.

(** An estimator that serves the specification (1,1,1)(1,1,1,12) as
    [last_value_sm] does and rejects every other one. *)
Definition only_fixed_spec_sm : statsmodels Z := λ model,
  if decide (order model = (1, 1, 1)%nat
             ∧ seasonal_order model = (1, 1, 1, 12)%nat)
  then last_value_sm model
  else Raise (LibraryError "NotImplementedError").

(** An estimator that rejects every series. *)
Definition rejecting_sm : statsmodels Z := λ _,
  Raise (LibraryError "LinAlgError").

(** Weekly rows ending on 2020-01-31, with the closing prices of
    [january_2020]. *)
Definition january_2020_weekly : list (Row Z) :=
  map (λ i, sample_row (ymd2ord 2020 1 31 - 7 * (30 - Z.of_nat i))
                       (100 + Z.of_nat i))
      (seq 0 31).

(** 2261-12-01 .. 2261-12-31: less than a year before the last day a
    [Timestamp] can hold. *)
Definition december_2261 : list (Row Z) :=
  map (λ i, sample_row (ymd2ord 2261 12 1 + Z.of_nat i) (100 + Z.of_nat i))
      (seq 0 31).

(** * Properties *)

(** ** The calendar *)

Ltac zbool :=
  repeat match goal with
  | H : (_ && _) = true |- _ => apply andb_true_iff in H; destruct H
  | H : (_ && _) = false |- _ => apply andb_false_iff in H; destruct H
  | H : (_ || _) = true |- _ => apply orb_true_iff in H; destruct H
  | H : (_ || _) = false |- _ => apply orb_false_iff in H; destruct H
  | H : negb _ = true |- _ => apply negb_true_iff in H
  | H : negb _ = false |- _ => apply negb_false_iff in H
  | H : (_ =? _) = true |- _ => apply Z.eqb_eq in H
  | H : (_ =? _) = false |- _ => apply Z.eqb_neq in H
  | H : (_ <? _) = true |- _ => apply Z.ltb_lt in H
  | H : (_ <? _) = false |- _ => apply Z.ltb_ge in H
  end.

Lemma month_cases (m : Z) :
  1 ≤ m ≤ 12 →
  m = 1 ∨ m = 2 ∨ m = 3 ∨ m = 4 ∨ m = 5 ∨ m = 6 ∨ m = 7 ∨ m = 8 ∨ m = 9
  ∨ m = 10 ∨ m = 11 ∨ m = 12.
Proof. lia. Qed.

Lemma days_in_month_bounds (y m : Z) : 28 ≤ days_in_month y m ≤ 31.
Proof.
  unfold days_in_month, DAYS_IN_MONTH. repeat case_match; lia.
Qed.

Lemma days_before_month_succ (y m : Z) :
  1 ≤ m ≤ 11 →
  days_before_month y (m + 1) = days_before_month y m + days_in_month y m.
Proof.
  intros Hm. unfold days_before_month, days_in_month.
  destruct (month_cases m) as [-> | Hc]; [lia | |];
    repeat (destruct Hc as [-> | Hc]; [destruct (is_leap y); reflexivity |]).
  - destruct (is_leap y); reflexivity.
  - lia.
Qed.

Lemma days_before_year_succ (y : Z) :
  days_before_year (y + 1)
  = days_before_year y + 365 + (if is_leap y then 1 else 0).
Proof.
  unfold days_before_year, is_leap. cbv zeta.
  replace (y + 1 - 1) with y by lia.
  repeat case_match; zbool; Z.to_euclidean_division_equations; lia.
Qed.

Lemma next_day_ord (c : civil) :
  valid_civil c →
  valid_civil (next_day c) ∧ ord_of_civil (next_day c) = ord_of_civil c + 1.
Proof.
  destruct c as [[y m] d]. intros (Hy & Hm & Hd).
  unfold next_day, ord_of_civil.
  destruct (Z.ltb_spec d (days_in_month y m)) as [Hlt | Hge].
  - split; [unfold valid_civil; lia | unfold ymd2ord; lia].
  - assert (d = days_in_month y m) as -> by lia.
    destruct (Z.ltb_spec m 12) as [Hm12 | Hm12].
    + split.
      * pose proof (days_in_month_bounds y (m + 1)). unfold valid_civil. lia.
      * unfold ymd2ord. rewrite days_before_month_succ by lia. lia.
    + assert (m = 12) as -> by lia. split.
      * pose proof (days_in_month_bounds (y + 1) 1). unfold valid_civil. lia.
      * unfold ymd2ord. rewrite days_before_year_succ.
        unfold days_before_month, days_in_month.
        generalize (days_before_year y). intros k.
        change (DAYS_BEFORE_MONTH 12) with 334.
        change (DAYS_BEFORE_MONTH 1) with 0.
        destruct (is_leap y), (is_leap (y + 1)); cbn; lia.
Qed.

Lemma iter_next_day_ord (c : civil) (n : nat) :
  valid_civil c →
  valid_civil (Nat.iter n next_day c)
  ∧ ord_of_civil (Nat.iter n next_day c) = ord_of_civil c + Z.of_nat n.
Proof.
  intros Hc. induction n as [| n [IHv IHo]]; simpl.
  - split; [done | lia].
  - destruct (next_day_ord _ IHv) as [Hv Ho]. split; [done | lia].
Qed.

(** ** Daily ranges *)

Lemma length_days_from (start : date) (n : nat) :
  length (days_from start n) = n.
Proof. unfold days_from. by rewrite length_map, length_seq. Qed.

Lemma days_from_lookup (start : date) (n i : nat) :
  (i < n)%nat → days_from start n !! i = Some (start + Z.of_nat i).
Proof.
  intros Hi. unfold days_from.
  by rewrite list_lookup_fmap, lookup_seq_lt.
Qed.

Lemma days_from_lookup_Some (start : date) (n i : nat) (d : date) :
  days_from start n !! i = Some d → (i < n)%nat ∧ d = start + Z.of_nat i.
Proof.
  intros Hd. assert (i < n)%nat as Hi.
  { apply lookup_lt_Some in Hd. by rewrite length_days_from in Hd. }
  rewrite days_from_lookup in Hd by done. by simplify_eq.
Qed.

Lemma days_from_consecutive (start : date) (n : nat) :
  consecutive_days (days_from start n).
Proof.
  intros i a b Ha Hb.
  apply days_from_lookup_Some in Ha as [_ ->].
  apply days_from_lookup_Some in Hb as [_ ->]. lia.
Qed.

Lemma days_from_ascending (start : date) (n : nat) :
  StronglySorted Z.lt (days_from start n).
Proof.
  unfold days_from. generalize 0%nat as k.
  induction n as [| n IH]; intros k; simpl; constructor.
  - apply IH.
  - apply Forall_forall. intros d Hd.
    apply list_elem_of_fmap in Hd as (j & -> & Hj).
    apply elem_of_seq in Hj. lia.
Qed.

Lemma days_from_NoDup (start : date) (n : nat) : NoDup (days_from start n).
Proof.
  unfold days_from. apply NoDup_fmap_2; [| apply NoDup_seq].
  intros i j Hij. lia.
Qed.

Lemma days_from_head (start : date) (n : nat) :
  (0 < n)%nat → head (days_from start n) = Some start.
Proof.
  intros Hn. rewrite head_lookup, days_from_lookup by done. f_equal. lia.
Qed.

Lemma days_from_civil (c : civil) (n i : nat) :
  valid_civil c → (i < n)%nat →
  days_from (ord_of_civil c + 1) n !! i
  = Some (ord_of_civil (Nat.iter (S i) next_day c)).
Proof.
  intros Hc Hi. rewrite days_from_lookup by done. f_equal.
  destruct (iter_next_day_ord c (S i) Hc) as [_ ->]. lia.
Qed.

(** ** The catalogue and the widgets *)

Lemma dict_snoc (pairs : list (string * string)) (k v : string) :
  dict (pairs ++ [(k, v)]) = <[k := v]> (dict pairs).
Proof. unfold dict. by rewrite foldl_app. Qed.

Lemma dict_lookup_is_Some (pairs : list (string * string)) (k : string) :
  is_Some (dict pairs !! k) ↔ k ∈ pairs.*1.
Proof.
  induction pairs as [| [k' v'] pairs IH] using rev_ind.
  - unfold dict; simpl. rewrite lookup_empty, elem_of_nil.
    split; [intros [? ?]; done | done].
  - rewrite dict_snoc, fmap_app, elem_of_app, <- IH. simpl.
    rewrite list_elem_of_singleton.
    destruct (decide (k' = k)) as [-> | Hne].
    + rewrite lookup_insert_eq. split; [auto | eauto].
    + rewrite lookup_insert_ne by done. split; [auto | intros [? | ?]; done].
Qed.

Lemma dict_lookup_NoDup (pairs : list (string * string)) (i : nat)
    (k v : string) :
  NoDup pairs.*1 → pairs !! i = Some (k, v) → dict pairs !! k = Some v.
Proof.
  revert i. induction pairs as [| [k' v'] pairs IH] using rev_ind;
    intros i Hnd Hi; [done |].
  rewrite fmap_app, NoDup_app in Hnd. destruct Hnd as (Hnd & Hfresh & _).
  rewrite dict_snoc.
  apply lookup_app_Some in Hi as [Hi | [Hlen Hi]].
  - rewrite lookup_insert_ne; [by eapply IH |].
    intros ->. apply (Hfresh k); [| simpl; apply list_elem_of_here].
    apply list_elem_of_fmap. exists (k, v). split; [done |].
    by eapply list_elem_of_lookup_2.
  - destruct (i - length pairs)%nat; simplify_eq/=.
    by rewrite lookup_insert_eq.
Qed.

Lemma ascii_compare_spec (a b : ascii) :
  CompareSpec (a = b) (N_of_ascii a < N_of_ascii b)%N
              (N_of_ascii b < N_of_ascii a)%N (Ascii.compare a b).
Proof.
  unfold Ascii.compare.
  destruct (N.compare_spec (N_of_ascii a) (N_of_ascii b)) as [Heq | Hlt | Hgt];
    constructor; try done.
  by rewrite <- (ascii_N_embedding a), <- (ascii_N_embedding b), Heq.
Qed.

Lemma ascii_compare_refl (a : ascii) : Ascii.compare a a = Eq.
Proof. unfold Ascii.compare. apply N.compare_refl. Qed.

Global Instance str_le_total : Total str_le.
Proof. intros s1 s2. apply String.leb_total. Qed.

Global Instance str_le_antisymm : AntiSymm (=) str_le.
Proof. intros s1 s2. apply String.leb_antisym. Qed.

Global Instance str_le_transitive : Transitive str_le.
Proof.
  unfold str_le, String.leb. intros s1.
  induction s1 as [| a s1 IH]; intros [| b s2] [| c s3]; simpl; try done.
  intros H12 H23.
  destruct (ascii_compare_spec a b) as [-> | Hab | Hab]; [| | done].
  - destruct (ascii_compare_spec b c) as [-> | Hbc | Hbc]; [| done | done].
    by apply (IH s2 s3).
  - destruct (ascii_compare_spec b c) as [-> | Hbc | Hbc]; [| | done].
    + by destruct (ascii_compare_spec a c) as [-> | Hac | Hac]; [lia | | lia].
    + by destruct (ascii_compare_spec a c) as [-> | Hac | Hac]; [lia | | lia].
Qed.

(** Any sorting procedure returns what [sorted] returns: a sorted
    rearrangement of a list of strings is unique. *)
Lemma sorted_unique (l l' : list string) :
  Sorted str_le l' → l' ≡ₚ l → l' = sorted l.
Proof.
  intros Hs Hp. apply (Sorted_unique str_le); [done | |].
  - unfold sorted. apply Sorted_merge_sort, _.
  - unfold sorted. by rewrite merge_sort_Permutation.
Qed.

Lemma stocks_unfold :
  stocks =
  ["Alphabet Inc Class C"; "Amazon.com, Inc."; "Apple Inc";
   "Bank of America Corp"; "Berkshire Hathaway Inc. Class A";
   "Coca-Cola Co"; "GameStop Corp."; "JPMorgan Chase & Co";
   "Johnson & Johnson"; "McDonald's Corp"; "Meta Platforms Inc";
   "Microsoft Corporation"; "Netflix Inc"]%string.
Proof. vm_compute. reflexivity. Qed.

Lemma stocks_Permutation : stocks ≡ₚ unsortedStocksList.
Proof. unfold stocks, sorted. apply merge_sort_Permutation. Qed.

Lemma unsortedStocksList_NoDup : NoDup unsortedStocksList.
Proof.
  apply (bool_decide_eq_true_1 (NoDup unsortedStocksList)).
  vm_compute. reflexivity.
Qed.

Lemma stocks_Sorted : Sorted str_le stocks.
Proof.
  rewrite stocks_unfold.
  repeat (constructor; [| first [apply HdRel_nil
                                | apply HdRel_cons; vm_compute; reflexivity]]).
  constructor.
Qed.

(** C10.  The names offered in the dropdown are the 13 names of the
    catalogue in ascending order, without duplicates, and they are exactly
    the keys of [stocks_dictionary]; so for whatever entry is picked the
    dictionary look-up succeeds, and it returns the code that stands at
    the position of the name in the original tuples. *)
Theorem dropdown_lookup_defined :
  length unsortedStocksList = 13%nat
  ∧ length unsortedStocksCodes = 13%nat
  ∧ NoDup unsortedStocksList
  ∧ Sorted str_le stocks
  ∧ stocks ≡ₚ unsortedStocksList
  ∧ NoDup stocks
  ∧ (∀ name, name ∈ stocks ↔ is_Some (stocks_dictionary !! name))
  ∧ ∀ pick, (pick < length stocks)%nat →
      ∃ name code i,
        selectbox stocks pick = Ok name
        ∧ unsortedStocksList !! i = Some name
        ∧ unsortedStocksCodes !! i = Some code
        ∧ getitem stocks_dictionary name = Ok code.
Proof.
  split_and!; try reflexivity.
  - apply unsortedStocksList_NoDup.
  - apply stocks_Sorted.
  - apply stocks_Permutation.
  - rewrite stocks_Permutation. apply unsortedStocksList_NoDup.
  - intros name. unfold stocks_dictionary.
    rewrite dict_lookup_is_Some, fst_zip by (vm_compute; lia).
    by rewrite stocks_Permutation.
  - intros pick Hpick.
    destruct (lookup_lt_is_Some_2 stocks pick Hpick) as [name Hname].
    assert (name ∈ unsortedStocksList) as Hin.
    { rewrite <- stocks_Permutation. by eapply list_elem_of_lookup_2. }
    apply list_elem_of_lookup in Hin as [i Hi].
    assert (i < length unsortedStocksCodes)%nat as Hlt.
    { apply lookup_lt_Some in Hi. exact Hi. }
    destruct (lookup_lt_is_Some_2 _ _ Hlt) as [code Hcode].
    exists name, code, i. split_and!; try done.
    + unfold selectbox. by rewrite Hname.
    + unfold getitem, stocks_dictionary.
      rewrite (dict_lookup_NoDup _ i name code); [done | |].
      * rewrite fst_zip by (vm_compute; lia). apply unsortedStocksList_NoDup.
      * rewrite lookup_zip_with, Hi, Hcode. done.
Qed.

Lemma dropdown_lookup_defined_witness :
  ∃ i, selectbox stocks 7 = Ok "JPMorgan Chase & Co"%string
       ∧ unsortedStocksList !! i = Some "JPMorgan Chase & Co"%string
       ∧ unsortedStocksCodes !! i = Some "JPM"%string
       ∧ getitem stocks_dictionary "JPMorgan Chase & Co" = Ok "JPM"%string.
Proof.
  destruct dropdown_lookup_defined as (_ & _ & _ & _ & _ & _ & _ & H).
  destruct (H 7%nat) as (name & code & i & Hsel & Hi & Hc & Hget).
  - vm_compute. lia.
  - assert (name = "JPMorgan Chase & Co"%string) as ->.
    { vm_compute in Hsel. congruence. }
    assert (code = "JPM"%string) as ->.
    { vm_compute in Hget. congruence. }
    exists i. done.
Defined.

(** ** The steps of the pipeline *)

Section PipelineFacts.
Context {price : Type}.
Implicit Types (sm : statsmodels price) (rows : list (Row price)).
Implicit Types (df_train : list (TrainRow price)).
Implicit Types (fv : list (nat * price)) (h : Z).

Lemma length_prepare rows : length (prepare rows) = length rows.
Proof. unfold prepare. apply length_map. Qed.

Lemma prepare_y rows : map y (prepare rows) = map Close rows.
Proof. unfold prepare. rewrite <- list_fmap_compose. done. Qed.

Lemma prepare_ds rows : map ds (prepare rows) = map Date rows.
Proof. unfold prepare. rewrite <- list_fmap_compose. done. Qed.

Lemma iloc_last_Some {A : Type} (s : list A) (x : A) :
  last s = Some x → iloc_last s = Ok x.
Proof. unfold iloc_last. by intros ->. Qed.

Lemma iloc_last_nil {A : Type} : iloc_last (@nil A) = Raise IndexError.
Proof. done. Qed.

Lemma timestamp_add_Ok (ts : date) (offset : Z) :
  is_Timestamp (ts + offset) → timestamp_add ts offset = Ok (ts + offset).
Proof. intros Hb. unfold timestamp_add. by rewrite bool_decide_eq_true_2. Qed.

Lemma timestamp_add_out (ts : date) (offset : Z) :
  ¬ is_Timestamp (ts + offset) →
  timestamp_add ts offset = Raise OutOfBoundsDatetime.
Proof. intros Hb. unfold timestamp_add. by rewrite bool_decide_eq_false_2. Qed.

Lemma date_range_Ok (start : date) h :
  0 ≤ h → Timestamp_min ≤ start → start + h - 1 ≤ Timestamp_max →
  date_range start h = Ok (days_from start (Z.to_nat h)).
Proof.
  intros Hh Hlo Hhi. unfold date_range.
  destruct (Z.ltb_spec h 0); [lia |].
  by rewrite bool_decide_eq_true_2.
Qed.

Lemma date_range_out (start : date) h :
  0 ≤ h → Timestamp_max < start + h - 1 →
  date_range start h = Raise OutOfBoundsDatetime.
Proof.
  intros Hh Hhi. unfold date_range.
  destruct (Z.ltb_spec h 0); [lia |].
  rewrite bool_decide_eq_false_2; [done | lia].
Qed.

Lemma date_range_inv (start : date) h (dates : list date) :
  date_range start h = Ok dates →
  0 ≤ h ∧ Timestamp_min ≤ start ∧ start + h - 1 ≤ Timestamp_max
  ∧ dates = days_from start (Z.to_nat h).
Proof.
  unfold date_range. destruct (Z.ltb_spec h 0); [done |].
  case_bool_decide as Hb; [| done]. intros [= <-]. by destruct Hb.
Qed.

Lemma forecast_index_Ok (d : date) h :
  0 < h → is_Timestamp d → d + h ≤ Timestamp_max →
  forecast_index d h = Ok (days_from (d + 1) (Z.to_nat h)).
Proof.
  intros Hh [Hlo Hhi] Hfit. unfold forecast_index, DateOffset.
  rewrite timestamp_add_Ok by (unfold is_Timestamp; lia). simpl.
  apply date_range_Ok; lia.
Qed.

Lemma forecast_index_out (d : date) h :
  0 < h → Timestamp_max < d + h →
  forecast_index d h = Raise OutOfBoundsDatetime.
Proof.
  intros Hh Hout. unfold forecast_index, DateOffset, timestamp_add.
  case_bool_decide; simpl; [| done]. apply date_range_out; lia.
Qed.

Lemma forecast_index_inv (d : date) h (dates : list date) :
  forecast_index d h = Ok dates →
  0 ≤ h ∧ is_Timestamp (d + 1) ∧ d + h ≤ Timestamp_max
  ∧ dates = days_from (d + 1) (Z.to_nat h).
Proof.
  unfold forecast_index, DateOffset, timestamp_add.
  case_bool_decide as Hb; simpl; [| done].
  intros (Hh & _ & Hhi & ->)%date_range_inv.
  split_and!; [done | done | lia | done].
Qed.

Lemma get_forecast_Ok (results : MLEResults price) h :
  0 < h →
  get_forecast results h
  = Ok (map (λ t, (t, predicted_mean_at (res_estimate results) t))
            (seq (nobs results) (Z.to_nat h))).
Proof.
  intros Hh. unfold get_forecast.
  by destruct (Z.ltb_spec 0 h); [| lia].
Qed.

Lemma DataFrame_Ok (dates : list date) fv :
  length dates = length fv →
  ∃ frame, DataFrame dates fv = Ok frame
           ∧ length frame = length fv
           ∧ map f_ds frame = dates
           ∧ map f_label frame = fv.*1
           ∧ map f_y frame = fv.*2.
Proof.
  intros Hlen. unfold DataFrame. rewrite decide_True by done.
  eexists. split; [reflexivity |].
  revert fv Hlen. induction dates as [| d dates IH]; intros [| lv fv] Hlen;
    simplify_eq/=; [done |].
  destruct (IH fv) as (IH1 & IH2 & IH3 & IH4); [done |].
  split_and!; by f_equal.
Qed.

Lemma DataFrame_mismatch (dates : list date) fv :
  length dates ≠ length fv → DataFrame dates fv = Raise ValueError.
Proof. intros Hlen. unfold DataFrame. by rewrite decide_False. Qed.

Lemma fit_Ok sm (model : SARIMAX price) (disp : bool) (e : Estimate price) :
  sm model = Ok e →
  fit sm model disp = Ok {| res_model := model; res_estimate := e |}.
Proof. unfold fit. by intros ->. Qed.

Lemma fit_Raise sm (model : SARIMAX price) (disp : bool) (x : exn) :
  sm model = Raise x → fit sm model disp = Raise x.
Proof. unfold fit. by intros ->. Qed.

Lemma nobs_model_of df_train (e : Estimate price) :
  nobs {| res_model := model_of df_train; res_estimate := e |}
  = length df_train.
Proof. unfold nobs. simpl. apply length_map. Qed.

Lemma assemble_Ok (d : date) h fv :
  0 < h → is_Timestamp d → d + h ≤ Timestamp_max →
  Z.of_nat (length fv) = h →
  ∃ frame, assemble d h fv = Ok frame
           ∧ length frame = length fv
           ∧ map f_ds frame = days_from (d + 1) (length fv)
           ∧ map f_label frame = fv.*1
           ∧ map f_y frame = fv.*2.
Proof.
  intros Hpos Hd Hfit Hh. unfold assemble.
  rewrite forecast_index_Ok by done. simpl.
  replace (Z.to_nat h) with (length fv) by lia.
  apply DataFrame_Ok, length_days_from.
Qed.

Lemma assemble_mismatch (d : date) h fv :
  0 < h → is_Timestamp d → d + h ≤ Timestamp_max →
  Z.of_nat (length fv) ≠ h → assemble d h fv = Raise ValueError.
Proof.
  intros Hpos Hd Hfit Hh. unfold assemble.
  rewrite forecast_index_Ok by done. simpl.
  apply DataFrame_mismatch. rewrite length_days_from. lia.
Qed.

Lemma assemble_out (d : date) h fv :
  0 < h → Timestamp_max < d + h →
  assemble d h fv = Raise OutOfBoundsDatetime.
Proof.
  intros Hpos Hout. unfold assemble. by rewrite forecast_index_out.
Qed.

(** When the estimator returns and the forecast dates are dates a
    [Timestamp] can hold, the pipeline returns, and the forecast frame is
    laid out as follows. *)
Lemma run_Ok sm rows h (e : Estimate price) (d : date) :
  0 < h →
  last (map Date rows) = Some d →
  is_Timestamp d →
  d + h ≤ Timestamp_max →
  sm (model_of (prepare rows)) = Ok e →
  ∃ frame,
    run sm rows h = Ok (prepare rows, frame)
    ∧ length frame = Z.to_nat h
    ∧ map f_ds frame = days_from (d + 1) (Z.to_nat h)
    ∧ map f_label frame = seq (length rows) (Z.to_nat h)
    ∧ map f_y frame
      = map (predicted_mean_at e) (seq (length rows) (Z.to_nat h)).
Proof.
  intros Hh Hlast Hd Hfit Hsm. unfold run, forecast_frame.
  rewrite (fit_Ok _ _ _ _ Hsm). simpl.
  rewrite get_forecast_Ok by done. simpl.
  rewrite prepare_ds, (iloc_last_Some _ _ Hlast). simpl.
  rewrite nobs_model_of, length_prepare.
  set (fv := map _ (seq (length rows) (Z.to_nat h))).
  assert (length fv = Z.to_nat h) as Hlen.
  { unfold fv. by rewrite length_map, length_seq. }
  destruct (assemble_Ok d h fv) as (frame & -> & Hl & Hds & Hlab & Hy);
    [done | done | done | lia |].
  exists frame. simpl. rewrite Hl, Hds, Hlab, Hy, Hlen.
  split_and!; try done.
  - unfold fv. rewrite <- list_fmap_compose. apply list_fmap_id.
  - unfold fv. by rewrite <- list_fmap_compose.
Qed.

(** Past the last day of a [Timestamp] the forecast dates cannot be
    generated. *)
Lemma run_out sm rows h (e : Estimate price) (d : date) :
  0 < h →
  last (map Date rows) = Some d →
  Timestamp_max < d + h →
  sm (model_of (prepare rows)) = Ok e →
  run sm rows h = Raise OutOfBoundsDatetime.
Proof.
  intros Hh Hlast Hout Hsm. unfold run, forecast_frame.
  rewrite (fit_Ok _ _ _ _ Hsm). simpl.
  rewrite get_forecast_Ok by done. simpl.
  rewrite prepare_ds, (iloc_last_Some _ _ Hlast). simpl.
  by rewrite assemble_out.
Qed.

Lemma run_Raise sm rows h (x : exn) :
  sm (model_of (prepare rows)) = Raise x → run sm rows h = Raise x.
Proof.
  intros Hsm. unfold run, forecast_frame. by rewrite (fit_Raise _ _ _ _ Hsm).
Qed.

Lemma last_is_Some {A : Type} (l : list A) : l ≠ [] → is_Some (last l).
Proof.
  intros Hl. destruct l as [| a l] using rev_ind; [done |].
  rewrite last_snoc. eauto.
Qed.

(** Running [main] again on the same day with the same pick and slider
    value, on the cache the first run left behind, gives the same result
    and leaves the cache as it is. *)
Lemma main_rerun (TODAY : string)
    (download : string → string → string → list (Row price)) sm
    (cache : gmap (string * string * string) (list (Row price)))
    (pick : nat) (n_years : Z) :
  let '(cache1, result1) := main TODAY download sm cache pick n_years in
  main TODAY download sm cache1 pick n_years = (cache1, result1).
Proof.
  unfold main. destruct (_ ≫= _) as [code | x]; [| done].
  unfold load_stock_data.
  destruct (cache !! (code, START, TODAY)) as [data |] eqn:Hc.
  - by rewrite Hc.
  - by rewrite lookup_insert_eq.
Qed.

(** The forecast frame is a function of the closing prices, the last date
    and the horizon. *)
Lemma forecast_frame_ext sm df1 df2 h :
  map y df1 = map y df2 →
  last (map ds df1) = last (map ds df2) →
  forecast_frame sm df1 h = forecast_frame sm df2 h.
Proof.
  intros Hy Hds. unfold forecast_frame, model_of, iloc_last.
  by rewrite Hy, Hds.
Qed.

(** ** The claims about the pipeline *)

(** C1.  For a non-empty observed series with last date [d] and a positive
    horizon [h] whose forecast dates a [Timestamp] can hold ([d + h] is
    not past 2262-04-11), the forecast index built on line 148 has exactly
    [h] dates; the first is [d] plus one calendar day, each further one is
    the day after its predecessor, so they are strictly ascending and free
    of duplicates; read on the civil calendar they are the successive days
    after [d].  Whenever the estimator returns, the assembled forecast
    frame carries exactly these dates. *)
Theorem forecast_dates_consecutive rows h (d : date) :
  0 < h →
  last (map Date rows) = Some d →
  is_Timestamp d →
  d + h ≤ Timestamp_max →
  ∃ dates,
    iloc_last (map ds (prepare rows)) = Ok d
    ∧ forecast_index d h = Ok dates
    ∧ Z.of_nat (length dates) = h
    ∧ head dates = Some (d + 1)
    ∧ consecutive_days dates
    ∧ StronglySorted Z.lt dates
    ∧ NoDup dates
    ∧ (∀ c i, valid_civil c → ord_of_civil c = d → (i < Z.to_nat h)%nat →
         dates !! i = Some (ord_of_civil (Nat.iter (S i) next_day c)))
    ∧ ∀ sm (e : Estimate price),
        sm (model_of (prepare rows)) = Ok e →
        ∃ frame, run sm rows h = Ok (prepare rows, frame)
                 ∧ map f_ds frame = dates.
Proof.
  intros Hh Hlast Hd Hfit. exists (days_from (d + 1) (Z.to_nat h)).
  split_and!.
  - by rewrite prepare_ds, (iloc_last_Some _ _ Hlast).
  - by apply forecast_index_Ok.
  - rewrite length_days_from. lia.
  - apply days_from_head. lia.
  - apply days_from_consecutive.
  - apply days_from_ascending.
  - apply days_from_NoDup.
  - intros c i Hc <- Hi. by apply days_from_civil.
  - intros sm e Hsm.
    destruct (run_Ok sm rows h e d Hh Hlast Hd Hfit Hsm)
      as (frame & ? & _ & ? & _).
    by exists frame.
Qed.

(** C2.  For a prepared series of at least 24 points, a positive horizon
    [h] and forecast dates a [Timestamp] can hold, once the model is fitted
    the forecast operation returns exactly [h] predicted means, one for
    each of the [h] time indices that follow the last observation, and the
    assembled frame has exactly [h] rows holding these values in order. *)
Theorem forecast_has_horizon_values sm rows h (e : Estimate price)
    (d : date) :
  (24 ≤ length rows)%nat →
  0 < h →
  last (map Date rows) = Some d →
  is_Timestamp d →
  d + h ≤ Timestamp_max →
  sm (model_of (prepare rows)) = Ok e →
  ∃ results fv frame,
    fit sm (model_of (prepare rows)) false = Ok results
    ∧ get_forecast results h = Ok fv
    ∧ Z.of_nat (length fv) = h
    ∧ fv.*1 = seq (length rows) (Z.to_nat h)
    ∧ fv.*2 = map (predicted_mean_at e) (seq (length rows) (Z.to_nat h))
    ∧ run sm rows h = Ok (prepare rows, frame)
    ∧ Z.of_nat (length frame) = h
    ∧ map f_label frame = fv.*1
    ∧ map f_y frame = fv.*2.
Proof.
  intros Hlen Hh Hlast Hd Hfit Hsm.
  destruct (run_Ok sm rows h e d Hh Hlast Hd Hfit Hsm)
    as (frame & Hrun & Hl & _ & Hlab & Hy).
  eexists _, _, frame. split_and!.
  - by apply fit_Ok.
  - by apply get_forecast_Ok.
  - rewrite length_map, length_seq. lia.
  - rewrite nobs_model_of, length_prepare, <- list_fmap_compose.
    apply list_fmap_id.
  - rewrite nobs_model_of, length_prepare, <- list_fmap_compose. done.
  - done.
  - lia.
  - rewrite Hlab, nobs_model_of, length_prepare, <- list_fmap_compose.
    symmetry. apply list_fmap_id.
  - rewrite Hy, nobs_model_of, length_prepare, <- list_fmap_compose. done.
Qed.

(** C3.  The model the pipeline fits is the seasonal ARIMA of line 139:
    the closing prices with non-seasonal order (1,1,1) and seasonal order
    (1,1,1,12).  It is this model the estimator is run on: an exception
    of the estimator on it is the outcome of the pipeline, and an estimate
    returned for it is what the fitted results hold and what the forecast
    values are read from.  No other specification is ever used: changing
    the estimator on every other specification changes nothing, for the
    forecasting part and for every invocation of [main]. *)
Theorem model_is_fixed_sarima sm rows h :
  order (model_of (prepare rows)) = (1, 1, 1)%nat
  ∧ seasonal_order (model_of (prepare rows)) = (1, 1, 1, 12)%nat
  ∧ endog (model_of (prepare rows)) = map Close rows
  ∧ (∀ x, sm (model_of (prepare rows)) = Raise x → run sm rows h = Raise x)
  ∧ (∀ e d,
       sm (model_of (prepare rows)) = Ok e →
       0 < h → last (map Date rows) = Some d →
       is_Timestamp d → d + h ≤ Timestamp_max →
       fit sm (model_of (prepare rows)) false
       = Ok {| res_model := model_of (prepare rows); res_estimate := e |}
       ∧ ∃ frame,
           run sm rows h = Ok (prepare rows, frame)
           ∧ map f_y frame
             = map (predicted_mean_at e)
                   (seq (length rows) (Z.to_nat h)))
  ∧ ∀ sm' : statsmodels price,
      (∀ model, order model = (1, 1, 1)%nat →
                seasonal_order model = (1, 1, 1, 12)%nat →
                sm' model = sm model) →
      run sm' rows h = run sm rows h
      ∧ ∀ TODAY download cache pick n_years,
          main TODAY download sm' cache pick n_years
          = main TODAY download sm cache pick n_years.
Proof.
  split_and!; [done | done | apply prepare_y | apply run_Raise | |].
  - intros e d Hsm Hh Hlast Hd Hfit. split; [by apply fit_Ok |].
    destruct (run_Ok sm rows h e d Hh Hlast Hd Hfit Hsm)
      as (frame & ? & _ & _ & _ & ?).
    by exists frame.
  - intros sm' Hagree.
    assert (∀ data k, run sm' data k = run sm data k) as Hrun.
    { intros data k. unfold run, forecast_frame, fit. by rewrite Hagree. }
    split; [apply Hrun |].
    intros TODAY download cache pick n_years. unfold main.
    destruct (_ ≫= _) as [code | x]; [| done].
    destruct (load_stock_data TODAY download cache code) as [cache' data].
    by rewrite Hrun.
Qed.

(** C5, as amended.  The preparation step validates nothing: it returns the
    empty series for the empty input and accepts rows in any date order.
    For the empty input the pipeline still yields no forecast frame: some
    later statement raises, and if the estimator accepts the empty series
    it is the look-up of the last date, with [IndexError].  For a non-empty
    input in whatever date order a forecast frame is produced as soon as
    the estimator returns, provided the forecast dates are dates a
    [Timestamp] can hold. *)
Theorem empty_input_gives_no_forecast sm h :
  prepare (@nil (Row price)) = []
  ∧ raises (run sm [] h)
  ∧ (∀ e, 0 < h → sm (model_of []) = Ok e → run sm [] h = Raise IndexError)
  ∧ ∀ rows e d,
      last (map Date rows) = Some d → is_Timestamp d →
      d + h ≤ Timestamp_max → 0 < h →
      sm (model_of (prepare rows)) = Ok e →
      is_Ok (run sm rows h).
Proof.
  split_and!.
  - done.
  - unfold run, forecast_frame, fit. simpl.
    destruct (sm (model_of [])) as [e | x]; simpl; [| by eexists].
    destruct (get_forecast _ h); simpl; by eexists.
  - intros e Hh Hsm. unfold run, forecast_frame, fit. simpl.
    rewrite Hsm. simpl. rewrite get_forecast_Ok by done. done.
  - intros rows e d Hlast Hd Hfit Hh Hsm.
    destruct (run_Ok sm rows h e d Hh Hlast Hd Hfit Hsm)
      as (frame & -> & _).
    by eexists.
Qed.

(** C6, as amended.  The pipeline checks neither the number of observations
    nor convergence.  The fit step raises exactly when statsmodels raises,
    and that exception leaves the pipeline unchanged; whenever statsmodels
    returns an estimate, converged or not, for a non-empty series of any
    length, a forecast frame of [h] rows is produced, provided the
    forecast dates are dates a [Timestamp] can hold. *)
Theorem fit_failure_is_the_estimators sm rows h :
  (∀ x, sm (model_of (prepare rows)) = Raise x ↔
        fit sm (model_of (prepare rows)) false = Raise x)
  ∧ (∀ x, sm (model_of (prepare rows)) = Raise x → run sm rows h = Raise x)
  ∧ ∀ e d,
      sm (model_of (prepare rows)) = Ok e →
      last (map Date rows) = Some d → is_Timestamp d →
      d + h ≤ Timestamp_max → 0 < h →
      ∃ frame, run sm rows h = Ok (prepare rows, frame)
               ∧ Z.of_nat (length frame) = h.
Proof.
  split_and!.
  - intros x. unfold fit.
    destruct (sm (model_of (prepare rows))); simpl; split; congruence.
  - intros x. apply run_Raise.
  - intros e d Hsm Hlast Hd Hfit Hh.
    destruct (run_Ok sm rows h e d Hh Hlast Hd Hfit Hsm)
      as (frame & ? & Hl & _).
    exists frame. split; [done | lia].
Qed.

(** C7, as amended.  For a last observed date [d] and a positive horizon
    [h] with [d + h] not past the last day of a [Timestamp], [assemble]
    lays the [i]-th generated date against the [i]-th predicted value: row
    [i] of the frame holds the date [i + 1] days after [d] together with
    the label and value of the [i]-th prediction; when the number of
    predicted values differs from the horizon it raises pandas'
    [ValueError].  With [d + h] past that day it raises
    [OutOfBoundsDatetime], whatever the number of values. *)
Theorem assemble_pairs_by_position (d : date) h fv :
  0 < h →
  is_Timestamp d →
  (d + h ≤ Timestamp_max → Z.of_nat (length fv) = h →
   ∃ frame, assemble d h fv = Ok frame
            ∧ length frame = length fv
            ∧ ∀ i lv, fv !! i = Some lv →
                frame !! i = Some {| f_label := lv.1;
                                     f_ds := d + 1 + Z.of_nat i;
                                     f_y := lv.2 |})
  ∧ (d + h ≤ Timestamp_max → Z.of_nat (length fv) ≠ h →
     assemble d h fv = Raise ValueError)
  ∧ (Timestamp_max < d + h → assemble d h fv = Raise OutOfBoundsDatetime).
Proof.
  intros Hpos Hd. split_and!.
  - intros Hfit Hh.
    destruct (assemble_Ok d h fv Hpos Hd Hfit Hh)
      as (frame & Hrun & Hl & Hds & Hlab & Hy).
    exists frame. split_and!; [done | done |].
    intros i lv Hi.
    assert (i < length frame)%nat as Hlt.
    { rewrite Hl. by eapply lookup_lt_Some. }
    destruct (lookup_lt_is_Some_2 _ _ Hlt) as [[lab dt val] Hrow].
    rewrite Hrow. f_equal.
    assert (map f_ds frame !! i = Some dt) as Hdt
      by (by rewrite list_lookup_fmap, Hrow).
    assert (map f_label frame !! i = Some lab) as Hl1
      by (by rewrite list_lookup_fmap, Hrow).
    assert (map f_y frame !! i = Some val) as Hv
      by (by rewrite list_lookup_fmap, Hrow).
    rewrite Hds in Hdt. apply days_from_lookup_Some in Hdt as [_ ->].
    rewrite Hlab, list_lookup_fmap, Hi in Hl1.
    rewrite Hy, list_lookup_fmap, Hi in Hv.
    by simplify_eq/=.
  - intros Hfit Hh. by apply assemble_mismatch.
  - intros Hout. by apply assemble_out.
Qed.

(** C8.  The prepared series has the length of the input, its [i]-th row
    holds the date and the closing price of the [i]-th input row unchanged,
    and the series handed to the model is the list of closing prices as
    they came: no differencing is applied. *)
Theorem prepare_passes_close_through rows :
  length (prepare rows) = length rows
  ∧ (∀ i, prepare rows !! i
          = (λ r, {| ds := Date r; y := Close r |}) <$> rows !! i)
  ∧ map y (prepare rows) = map Close rows
  ∧ map ds (prepare rows) = map Date rows
  ∧ endog (model_of (prepare rows)) = map Close rows.
Proof.
  split_and!.
  - apply length_prepare.
  - intros i. unfold prepare. apply list_lookup_fmap.
  - apply prepare_y.
  - apply prepare_ds.
  - simpl. apply prepare_y.
Qed.

(** C9.  For a slider value [n_years] between 1 and 10 the horizon is
    [n_years * 365], a positive integer between 365 and 3650, and this is
    the horizon [main] passes to the forecasting part. *)
Theorem period_in_range (n_years : Z) :
  in_slider n_years →
  period n_years = n_years * 365
  ∧ 0 < period n_years
  ∧ 365 ≤ period n_years ≤ 3650
  ∧ ∀ TODAY download sm cache pick name code,
      selectbox stocks pick = Ok name →
      getitem stocks_dictionary name = Ok code →
      main TODAY download sm cache pick n_years
      = ((load_stock_data TODAY download cache code).1,
         run sm (load_stock_data TODAY download cache code).2
           (n_years * 365)).
Proof.
  unfold in_slider, slider_min, slider_max, period. intros Hn.
  split_and!; try lia.
  intros TODAY download sm cache pick name code Hsel Hget.
  unfold main. rewrite Hsel. simpl. rewrite Hget.
  by destruct (load_stock_data TODAY download cache code).
Qed.

End PipelineFacts.

(** ** The definitions at work *)

Ltac in_bounds :=
  unfold is_Timestamp;
  repeat match goal with
         | |- _ ∧ _ => split
         | |- _ ≤ _ => apply Z.leb_le; vm_compute; reflexivity
         | |- _ < _ => apply Z.ltb_lt; vm_compute; reflexivity
         end.

Example next_days_of_2020_01_31 :
  map (λ i, Nat.iter (S i) next_day (2020, 1, 31)) (seq 0 5)
  = [(2020, 2, 1); (2020, 2, 2); (2020, 2, 3); (2020, 2, 4); (2020, 2, 5)].
Proof. reflexivity. Qed.

Example next_day_of_leap_day : next_day (2024, 2, 28) = (2024, 2, 29).
Proof. reflexivity. Qed.

Example ymd2ord_2020_01_31 : ymd2ord 2020 1 31 = 737455.
Proof. reflexivity. Qed.

(** Rows that end on 2261-12-31 with the smallest horizon of the slider:
    the fit returns, and generating the forecast dates raises. *)
Example run_december_2261 :
  last (map Date december_2261) = Some (ymd2ord 2261 12 31)
  ∧ run last_value_sm december_2261 (period 1) = Raise OutOfBoundsDatetime.
Proof. split; vm_compute; reflexivity. Qed.

(** The scenario of the specification: observed dates 2020-01-01 ..
    2020-01-31 and horizon 5 give the forecast dates 2020-02-01 ..
    2020-02-05. *)
Lemma forecast_dates_consecutive_witness :
  last (map Date january_2020) = Some (ymd2ord 2020 1 31)
  ∧ ∃ frame,
      run last_value_sm january_2020 5 = Ok (prepare january_2020, frame)
      ∧ map f_ds frame
        = [ymd2ord 2020 2 1; ymd2ord 2020 2 2; ymd2ord 2020 2 3;
           ymd2ord 2020 2 4; ymd2ord 2020 2 5].
Proof.
  split; [reflexivity |].
  destruct (forecast_dates_consecutive january_2020 5 (ymd2ord 2020 1 31))
    as (dates & _ & Hidx & _ & _ & _ & _ & _ & _ & Hrun);
    [lia | reflexivity | in_bounds | in_bounds |].
  destruct (Hrun last_value_sm _ eq_refl) as (frame & Hr & Hds).
  exists frame. split; [exact Hr |]. rewrite Hds.
  vm_compute in Hidx. injection Hidx as <-. reflexivity.
Defined.

Lemma forecast_has_horizon_values_witness :
  ∃ frame,
    run last_value_sm january_2020 5 = Ok (prepare january_2020, frame)
    ∧ Z.of_nat (length frame) = 5
    ∧ map f_label frame = [31; 32; 33; 34; 35]%nat
    ∧ map f_y frame = [130; 130; 130; 130; 130].
Proof.
  destruct (forecast_has_horizon_values last_value_sm january_2020 5
              {| params := []; converged := true;
                 predicted_mean_at := λ _, 130 |} (ymd2ord 2020 1 31))
    as (results & fv & frame & _ & _ & _ & Hlab & Hval & Hrun & Hlen
        & Hl & Hy);
    [vm_compute; lia | lia | reflexivity | in_bounds | in_bounds
    | reflexivity |].
  exists frame. rewrite Hl, Hy, Hlab, Hval.
  split_and!; [exact Hrun | exact Hlen | reflexivity | reflexivity].
Defined.

Lemma model_is_fixed_sarima_witness :
  run rejecting_sm january_2020 5 = Raise (LibraryError "LinAlgError")
  ∧ (∃ frame,
       run last_value_sm january_2020 5 = Ok (prepare january_2020, frame)
       ∧ map f_y frame = [130; 130; 130; 130; 130])
  ∧ run only_fixed_spec_sm january_2020 5 = run last_value_sm january_2020 5
  ∧ only_fixed_spec_sm {| endog := [1; 2]; order := (2, 1, 0)%nat;
                          seasonal_order := (0, 0, 0, 0)%nat |}
    = Raise (LibraryError "NotImplementedError").
Proof.
  split_and!.
  - destruct (model_is_fixed_sarima rejecting_sm january_2020 5)
      as (_ & _ & _ & Hraise & _).
    apply Hraise. reflexivity.
  - destruct (model_is_fixed_sarima last_value_sm january_2020 5)
      as (_ & _ & _ & _ & Hfit & _).
    destruct (Hfit {| params := []; converged := true;
                      predicted_mean_at := λ _, 130 |}
                (ymd2ord 2020 1 31))
      as (_ & frame & Hrun & Hy);
      [reflexivity | lia | reflexivity | in_bounds | in_bounds |].
    exists frame. split; [exact Hrun |]. rewrite Hy. reflexivity.
  - destruct (model_is_fixed_sarima last_value_sm january_2020 5)
      as (_ & _ & _ & _ & _ & Hother).
    apply (Hother only_fixed_spec_sm).
    intros model Ho Hs. unfold only_fixed_spec_sm.
    rewrite decide_True; [reflexivity | split; assumption].
  - reflexivity.
Defined.

(** C5 as stated fails: the empty input is prepared without an error, and
    rows in descending date order are prepared and forecast from; the
    forecast then starts the day after the last row, 2020-01-01. *)
Lemma prepare_accepts_any_input :
  prepare (@nil (Row Z)) = []
  ∧ ¬ Sorted Z.le (map Date (reverse january_2020))
  ∧ ∃ frame,
      run last_value_sm (reverse january_2020) 5
      = Ok (prepare (reverse january_2020), frame)
      ∧ map f_ds frame
        = [ymd2ord 2020 1 2; ymd2ord 2020 1 3; ymd2ord 2020 1 4;
           ymd2ord 2020 1 5; ymd2ord 2020 1 6].
Proof.
  split_and!.
  - reflexivity.
  - intros Hs. vm_compute in Hs.
    apply Sorted_inv in Hs as [_ Hhd]. apply HdRel_inv in Hhd.
    exact (Hhd eq_refl).
  - eexists. split; [vm_compute; reflexivity | reflexivity].
Qed.

Lemma empty_input_gives_no_forecast_witness :
  run last_value_sm [] 5 = Raise IndexError
  ∧ is_Ok (run last_value_sm (reverse january_2020) 5).
Proof.
  destruct (empty_input_gives_no_forecast last_value_sm 5)
    as (_ & _ & Hempty & Hany).
  split.
  - eapply Hempty; [lia | reflexivity].
  - eapply (Hany _ _ (ymd2ord 2020 1 1));
      [reflexivity | in_bounds | in_bounds | lia | reflexivity].
Defined.

(** C6 as stated fails: on a series of 23 observations whose estimation
    returns without having converged, no error is raised and a forecast of
    365 rows is produced. *)
Lemma short_series_still_forecast :
  length (take 23 january_2020) = 23%nat
  ∧ (∃ e, stalled_sm (model_of (prepare (take 23 january_2020))) = Ok e
          ∧ converged e = false)
  ∧ ∃ frame,
      run stalled_sm (take 23 january_2020) 365
      = Ok (prepare (take 23 january_2020), frame)
      ∧ length frame = 365%nat.
Proof.
  split_and!.
  - reflexivity.
  - eexists. split; reflexivity.
  - eexists. split; [vm_compute; reflexivity | reflexivity].
Qed.

Lemma fit_failure_is_the_estimators_witness :
  run rejecting_sm january_2020 365 = Raise (LibraryError "LinAlgError")
  ∧ ∃ frame,
      run stalled_sm (take 23 january_2020) 365
      = Ok (prepare (take 23 january_2020), frame)
      ∧ Z.of_nat (length frame) = 365.
Proof.
  split.
  - destruct (fit_failure_is_the_estimators rejecting_sm january_2020 365)
      as (_ & Hraise & _).
    apply Hraise. reflexivity.
  - destruct (fit_failure_is_the_estimators stalled_sm
                (take 23 january_2020) 365) as (_ & _ & Hok).
    eapply (Hok _ (ymd2ord 2020 1 23));
      [reflexivity | reflexivity | in_bounds | in_bounds | lia].
Defined.

(** C7 as stated fails.  A count of values that differs from the horizon
    raises pandas' [ValueError], no error of its own; and when the forecast
    dates pass the last day of a [Timestamp], here from 2262-04-10 on,
    [assemble] raises [OutOfBoundsDatetime], whether the count differs
    from the horizon or equals it, and pairs nothing. *)
Lemma assemble_raises_other_errors :
  assemble (ymd2ord 2020 1 31) 3 [(31%nat, 130); (32%nat, 131)]
  = Raise ValueError
  ∧ is_Timestamp (ymd2ord 2262 4 10)
  ∧ assemble (ymd2ord 2262 4 10) 3 [(31%nat, 130); (32%nat, 131)]
    = Raise OutOfBoundsDatetime
  ∧ assemble (ymd2ord 2262 4 10) 2 [(31%nat, 130); (32%nat, 131)]
    = Raise OutOfBoundsDatetime.
Proof. split_and!; try reflexivity; in_bounds. Qed.

Lemma assemble_pairs_by_position_witness :
  assemble (ymd2ord 2020 1 31) 2 [(31%nat, 130); (32%nat, 131)]
  = Ok [ {| f_label := 31; f_ds := ymd2ord 2020 2 1; f_y := 130 |};
         {| f_label := 32; f_ds := ymd2ord 2020 2 2; f_y := 131 |} ]
  ∧ assemble (ymd2ord 2020 1 31) 3 [(31%nat, 130); (32%nat, 131)]
    = Raise ValueError
  ∧ assemble (ymd2ord 2262 4 10) 2 [(31%nat, 130); (32%nat, 131)]
    = Raise OutOfBoundsDatetime.
Proof.
  split_and!.
  - destruct (assemble_pairs_by_position (ymd2ord 2020 1 31) 2
                [(31%nat, 130); (32%nat, 131)]) as (Hok & _ & _);
      [lia | in_bounds |].
    destruct Hok as (frame & -> & Hlen & Hrow); [in_bounds | reflexivity |].
    pose proof (Hrow 0%nat _ eq_refl) as H0.
    pose proof (Hrow 1%nat _ eq_refl) as H1.
    destruct frame as [| r0 [| r1 [| r2 frame]]]; simplify_eq/=.
    reflexivity.
  - destruct (assemble_pairs_by_position (ymd2ord 2020 1 31) 3
                [(31%nat, 130); (32%nat, 131)]) as (_ & Hbad & _);
      [lia | in_bounds |].
    apply Hbad; [in_bounds | simpl; lia].
  - destruct (assemble_pairs_by_position (ymd2ord 2262 4 10) 2
                [(31%nat, 130); (32%nat, 131)]) as (_ & _ & Hout);
      [lia | in_bounds |].
    apply Hout. in_bounds.
Defined.

Lemma period_in_range_witness :
  period 3 = 1095
  ∧ main "2020-02-01" (λ _ _ _, january_2020) last_value_sm ∅ 7 3
    = ({[("JPM"%string, START, "2020-02-01"%string) := january_2020]},
       run last_value_sm january_2020 1095).
Proof.
  destruct (period_in_range (price := Z) 3) as (Hp & _ & _ & Hmain).
  { unfold in_slider, slider_min, slider_max. lia. }
  split; [exact Hp |].
  rewrite (Hmain "2020-02-01"%string (λ _ _ _, january_2020) last_value_sm
             ∅ 7%nat "JPMorgan Chase & Co"%string "JPM"%string);
    [reflexivity | vm_compute; reflexivity | vm_compute; reflexivity].
Defined.

(** ** The catalogue as a dictionary *)

Lemma dict_lookup_elem (pairs : list (string * string)) (k v : string) :
  dict pairs !! k = Some v → (k, v) ∈ pairs.
Proof.
  induction pairs as [| [k' v'] pairs IH] using rev_ind; [done |].
  rewrite dict_snoc, elem_of_app, list_elem_of_singleton.
  destruct (decide (k' = k)) as [-> | Hne].
  - rewrite lookup_insert_eq. intros [= ->]. by right.
  - rewrite lookup_insert_ne by done. auto.
Qed.

Lemma unsortedStocksCodes_NoDup : NoDup unsortedStocksCodes.
Proof.
  apply (bool_decide_eq_true_1 (NoDup unsortedStocksCodes)).
  vm_compute. reflexivity.
Qed.

Lemma getitem_position (name code : string) :
  getitem stocks_dictionary name = Ok code →
  ∃ i, unsortedStocksList !! i = Some name
       ∧ unsortedStocksCodes !! i = Some code.
Proof.
  unfold getitem, stocks_dictionary.
  destruct (dict _ !! name) as [v |] eqn:Hv; [| done].
  intros [= ->]. apply dict_lookup_elem in Hv.
  apply list_elem_of_lookup in Hv as [i Hi].
  apply lookup_zip_with_Some in Hi as (n & c & [= <- <-] & Hn & Hc).
  by exists i.
Qed.

(** X5.  No two names of the catalogue resolve to the same stock code. *)
Theorem catalogue_codes_injective (name1 name2 code : string) :
  getitem stocks_dictionary name1 = Ok code →
  getitem stocks_dictionary name2 = Ok code →
  name1 = name2.
Proof.
  intros H1 H2.
  apply getitem_position in H1 as (i & Hn1 & Hc1).
  apply getitem_position in H2 as (j & Hn2 & Hc2).
  assert (i = j) as ->.
  { eapply NoDup_lookup; [apply unsortedStocksCodes_NoDup | done | done]. }
  congruence.
Qed.

Lemma catalogue_codes_injective_witness :
  getitem stocks_dictionary "Apple Inc" = Ok "AAPL"%string
  ∧ ("Apple Inc" = "Apple Inc")%type.
Proof.
  split; [reflexivity |].
  apply (catalogue_codes_injective _ _ "AAPL"); reflexivity.
Defined.

(** ** Horizons and calendar years *)

Lemma leap_year_spec (y : Z) :
  is_leap y = true ↔ y mod 4 = 0 ∧ (y mod 100 ≠ 0 ∨ y mod 400 = 0).
Proof.
  unfold is_leap.
  rewrite andb_true_iff, orb_true_iff, negb_true_iff, !Z.eqb_eq, Z.eqb_neq.
  done.
Qed.

(** The days of [n] consecutive years beyond [n * 365]: the leap days
    among them. *)
Lemma days_before_year_gap (y n : Z) :
  1 ≤ n ≤ 10 →
  let leap_days := days_before_year (y + n) - days_before_year y - n * 365 in
  0 ≤ leap_days ≤ 3
  ∧ (is_leap y = true → 1 ≤ leap_days)
  ∧ (is_leap (y + n) = true → leap_days ≤ 2).
Proof.
  intros Hn. cbv zeta. rewrite !leap_year_spec.
  unfold days_before_year. cbv zeta.
  split; [split | split].
  - Z.to_euclidean_division_equations; lia.
  - Z.to_euclidean_division_equations; lia.
  - intros [H4 H]. Z.to_euclidean_division_equations; lia.
  - intros [H4 H]. Z.to_euclidean_division_equations; lia.
Qed.

Lemma ymd2ord_years_later (y m d n : Z) :
  1 ≤ n ≤ 10 →
  0 ≤ ymd2ord (y + n) m d - (ymd2ord y m d + n * 365) ≤ 3.
Proof.
  intros Hn. destruct (days_before_year_gap y n Hn) as (Hgap & Hlo & Hhi).
  cbv zeta in *. unfold ymd2ord, days_before_month.
  destruct (is_leap y), (is_leap (y + n)), (2 <? m); simpl;
    try specialize (Hlo eq_refl); try specialize (Hhi eq_refl); lia.
Qed.

Lemma last_days_from (start : date) (n : nat) :
  (0 < n)%nat → last (days_from start n) = Some (start + Z.of_nat n - 1).
Proof.
  intros Hn. rewrite last_lookup, length_days_from.
  rewrite days_from_lookup by lia. f_equal. lia.
Qed.

Lemma tail5_fmap {A B : Type} (f : A → B) (l : list A) :
  map f (tail5 l) = tail5 (map f l).
Proof. unfold tail5. by rewrite length_map, <- fmap_drop. Qed.

Lemma tail5_seq (j n : nat) :
  (5 ≤ n)%nat → tail5 (seq j n) = seq (j + n - 5) 5.
Proof.
  intros Hn. unfold tail5. rewrite length_seq, drop_seq.
  f_equal; lia.
Qed.

Lemma tail5_days_from (start : date) (n : nat) :
  (5 ≤ n)%nat →
  tail5 (days_from start n) = days_from (start + Z.of_nat n - 5) 5.
Proof.
  intros Hn. unfold days_from.
  rewrite <- tail5_fmap, tail5_seq by done. cbn [seq map].
  repeat (f_equal; [lia |]). f_equal. lia.
Qed.

Lemma length_tail5 {A : Type} (l : list A) :
  length (tail5 l) = (length l `min` 5)%nat.
Proof. unfold tail5. rewrite length_drop. lia. Qed.

Section ScriptFacts.
Context {price : Type}.
Implicit Types (sm : statsmodels price) (rows : list (Row price)).
Implicit Types (download : string → string → string → list (Row price)).
Implicit Types (cache : gmap (string * string * string) (list (Row price))).
Implicit Types (h : Z) (TODAY : string) (notes : bool → list string).

(** ** [load_stock_data] *)


(** ** The script *)

Lemma main_valid TODAY download sm cache (pick : nat) (n_years : Z)
    (name code : string) :
  selectbox stocks pick = Ok name →
  getitem stocks_dictionary name = Ok code →
  main TODAY download sm cache pick n_years
  = ((load_stock_data TODAY download cache code).1,
     run sm (load_stock_data TODAY download cache code).2 (period n_years)).
Proof.
  intros Hsel Hget. unfold main. rewrite Hsel. simpl. rewrite Hget.
  by destruct (load_stock_data TODAY download cache code).
Qed.

(** The steps of the script, one at a time. *)
Lemma step_emit {A : Type} (e : element price) (k : nat → ui A)
    (w : World price) :
  (emit e ≫= k) w
  = k (length (screen w))
      {| st_cache := st_cache w; screen := screen w ++ [e] |}.
Proof. reflexivity. Qed.

Lemma step_lift_Ok {A B : Type} (a : A) (k : A → ui B) (w : World price) :
  (lift (Ok a) ≫= k) w = k a w.
Proof. reflexivity. Qed.

Lemma step_lift_Raise {A B : Type} (x : exn) (k : A → ui B)
    (w : World price) :
  (lift (Raise x) ≫= k) w = (w, Raise x).
Proof. reflexivity. Qed.

Lemma step_handle_text {A : Type} (handle : nat) (s : string)
    (k : unit → ui A) (w : World price) :
  (handle_text handle s ≫= k) w
  = k () {| st_cache := st_cache w;
            screen := <[handle := Text s]> (screen w) |}.
Proof. reflexivity. Qed.

Lemma step_three_texts {A : Type} (k : unit → ui A) (w : World price) :
  (for_range 3 (emit (Text "")) ≫= k) w
  = k () {| st_cache := st_cache w;
            screen := screen w ++ [Text ""; Text ""; Text ""] |}.
Proof.
  unfold for_range, mbind, ui_mbind, ui_bind, emit, mret, ui_mret, ui_ret.
  cbn [screen st_cache]. by rewrite <- !(assoc_L (++)).
Qed.

Lemma step_load {A : Type} TODAY notes download (stock_code : string)
    (k : list (Row price) → ui A) (w : World price) :
  (load_step TODAY notes download stock_code ≫= k) w
  = k (load_stock_data TODAY download (st_cache w) stock_code).2
      {| st_cache :=
           (load_stock_data TODAY download (st_cache w) stock_code).1;
         screen :=
           screen w
           ++ map Notice
                (notes (bool_decide
                          (is_Some (st_cache w
                                      !! (stock_code, START, TODAY))))) |}.
Proof.
  unfold load_step, mbind, ui_mbind, ui_bind.
  by destruct (load_stock_data TODAY download (st_cache w) stock_code).
Qed.

Lemma step_plot_data {A : Type} rows (k : unit → ui A) (w : World price) :
  (plot_data rows ≫= k) w
  = k () {| st_cache := st_cache w;
            screen := screen w ++ [Subheader "Plotting Scatter Plots";
                                   PlotlyChart (plot_figure rows)] |}.
Proof.
  unfold plot_data, mbind, ui_mbind, ui_bind, emit, mret, ui_mret, ui_ret.
  cbn [screen st_cache]. by rewrite <- !(assoc_L (++)).
Qed.

Ltac ui_step :=
  first [ rewrite step_emit | rewrite step_three_texts
        | rewrite step_handle_text | rewrite step_load
        | rewrite step_plot_data | rewrite step_lift_Ok
        | rewrite step_lift_Raise ];
  cbn [screen st_cache length app].

Lemma insert_at_end_of {A : Type} (l1 l2 : list A) (x y : A) :
  <[length l1 := y]> (l1 ++ x :: l2) = l1 ++ y :: l2.
Proof. induction l1 as [| a l1 IH]; simpl; [done | by f_equal]. Qed.

Lemma main_page_valid TODAY notes download sm cache (pick : nat)
    (n_years : Z) (name code : string) :
  selectbox stocks pick = Ok name →
  getitem stocks_dictionary name = Ok code →
  main_page TODAY notes download sm pick n_years
    {| st_cache := cache; screen := [] |}
  = let hit := bool_decide (is_Some (cache !! (code, START, TODAY))) in
    let '(cache1, stock_data) := load_stock_data TODAY download cache code in
    match forecast_frame sm (prepare stock_data) (period n_years) with
    | Ok forecast_dataframe =>
        ({| st_cache := cache1;
            screen := page_top name (notes hit) stock_data
                      ++ [Text (done_text name)]
                      ++ page_forecast name (prepare stock_data)
                           forecast_dataframe |},
         Ok (prepare stock_data, forecast_dataframe))
    | Raise e =>
        ({| st_cache := cache1;
            screen := page_top name (notes hit) stock_data
                      ++ [Text (forecasting_text name)] |},
         Raise e)
    end.
Proof.
  intros Hsel Hget. unfold main_page.
  do 5 ui_step. rewrite Hsel. ui_step. rewrite Hget. do 4 ui_step.
  ui_step.
  destruct (load_stock_data TODAY download cache code) as [cache1 stock_data].
  cbn [fst snd]. do 6 ui_step.
  match goal with
  | |- _ {| st_cache := _; screen := ?s |} = _ =>
      replace s
        with (page_top name
                (notes (bool_decide
                          (is_Some (cache !! (code, START, TODAY)))))
                stock_data)
        by (unfold page_top; rewrite <- !(assoc_L (++)); reflexivity)
  end.
  generalize (page_top name
                (notes (bool_decide
                          (is_Some (cache !! (code, START, TODAY)))))
                stock_data).
  intros top. rewrite step_emit. cbn [screen st_cache].
  destruct (forecast_frame sm (prepare stock_data) (period n_years))
    as [forecast_dataframe | e].
  - rewrite step_lift_Ok.
    do 6 (rewrite step_emit; cbn [screen st_cache]).
    rewrite step_handle_text. cbn [screen st_cache].
    unfold mret, ui_mret, ui_ret. do 2 f_equal.
    rewrite <- !(assoc_L (++)). cbn [app].
    apply insert_at_end_of.
  - by rewrite step_lift_Raise.
Qed.

(** The page and the outcome of a run whose selection resolves. *)
Lemma run_script_valid TODAY notes download sm cache (pick : nat)
    (n_years : Z) (name code : string) :
  selectbox stocks pick = Ok name →
  getitem stocks_dictionary name = Ok code →
  run_script TODAY notes download sm cache pick n_years
  = let hit := bool_decide (is_Some (cache !! (code, START, TODAY))) in
    let '(cache1, stock_data) := load_stock_data TODAY download cache code in
    match forecast_frame sm (prepare stock_data) (period n_years) with
    | Ok forecast_dataframe =>
        ({| st_cache := cache1;
            screen := page_top name (notes hit) stock_data
                      ++ [Text (done_text name)]
                      ++ page_forecast name (prepare stock_data)
                           forecast_dataframe |},
         Ok (prepare stock_data, forecast_dataframe))
    | Raise e =>
        ({| st_cache := cache1;
            screen := page_top name (notes hit) stock_data
                      ++ [Text (forecasting_text name); ExceptionBox e] |},
         Raise e)
    end.
Proof.
  intros Hsel Hget. unfold run_script.
  rewrite (main_page_valid _ _ _ _ _ _ _ _ _ Hsel Hget). cbv zeta.
  destruct (load_stock_data TODAY download cache code) as [cache1 stock_data].
  destruct (forecast_frame sm (prepare stock_data) (period n_years));
    [done |].
  cbn [screen st_cache]. by rewrite <- (assoc_L (++)).
Qed.

(** The outcome of a run whose selection does not resolve: the script
    stops below the dropdown. *)
Lemma run_script_invalid TODAY notes download sm cache (pick : nat)
    (n_years : Z) (x : exn) :
  (selectbox stocks pick ≫= getitem stocks_dictionary) = Raise x →
  (run_script TODAY notes download sm cache pick n_years).1.(st_cache)
  = cache
  ∧ (run_script TODAY notes download sm cache pick n_years).2 = Raise x.
Proof.
  intros Hx. unfold run_script, main_page. do 5 ui_step.
  destruct (selectbox stocks pick) as [name | x'];
    [| ui_step; by simplify_eq/=].
  ui_step. simpl in Hx. rewrite Hx. by ui_step.
Qed.

(** X3.  A run never removes or replaces a cache entry, and the entry it
    adds, if any, stands under a stock code of the catalogue: a cache
    whose keys carry catalogue codes keeps that property. *)
Theorem main_cache_keys TODAY download sm cache (pick : nat) (n_years : Z) :
  (∀ k, is_Some (cache !! k) → k.1.1 ∈ unsortedStocksCodes) →
  (∀ k, is_Some ((main TODAY download sm cache pick n_years).1 !! k) →
        k.1.1 ∈ unsortedStocksCodes)
  ∧ ∀ k v, cache !! k = Some v →
           (main TODAY download sm cache pick n_years).1 !! k = Some v.
Proof.
  intros Hkeys. unfold main.
  destruct (selectbox stocks pick) as [name | x]; simpl; [| done].
  destruct (getitem stocks_dictionary name) as [code | x] eqn:Hget;
    [| done].
  apply getitem_position in Hget as (i & _ & Hcode).
  unfold load_stock_data.
  destruct (cache !! (code, START, TODAY)) as [data |] eqn:Hc; simpl;
    [done |].
  split.
  - intros k. destruct (decide (k = (code, START, TODAY))) as [-> | Hne].
    + intros _. by eapply list_elem_of_lookup_2.
    + rewrite lookup_insert_ne by done. apply Hkeys.
  - intros k v Hk. rewrite lookup_insert_ne; [done | congruence].
Qed.


(** X6.  The forecast frame depends on the closing prices, the last
    observed date and the horizon, and on nothing else: earlier dates
    (their gaps, their order) and the other columns have no influence. *)
Theorem forecast_ignores_earlier_dates sm rows1 rows2 h :
  map Close rows1 = map Close rows2 →
  last (map Date rows1) = last (map Date rows2) →
  forecast_frame sm (prepare rows1) h = forecast_frame sm (prepare rows2) h.
Proof.
  intros Hclose Hlast. apply forecast_frame_ext.
  - by rewrite !prepare_y.
  - by rewrite !prepare_ds.
Qed.

(** What a successful run tells about its input and its frames. *)
Lemma run_inv sm rows h (df_train : list (TrainRow price))
    (frame : list (ForecastRow price)) :
  run sm rows h = Ok (df_train, frame) →
  0 < h
  ∧ rows ≠ []
  ∧ df_train = prepare rows
  ∧ ∃ e d,
      sm (model_of (prepare rows)) = Ok e
      ∧ last (map Date rows) = Some d
      ∧ is_Timestamp (d + 1)
      ∧ d + h ≤ Timestamp_max
      ∧ length frame = Z.to_nat h
      ∧ map f_ds frame = days_from (d + 1) (Z.to_nat h)
      ∧ map f_label frame = seq (length rows) (Z.to_nat h)
      ∧ map f_y frame
        = map (predicted_mean_at e) (seq (length rows) (Z.to_nat h)).
Proof.
  intros Hrun.
  destruct (sm (model_of (prepare rows))) as [e | x] eqn:Hsm;
    [| by rewrite (run_Raise _ _ _ _ Hsm) in Hrun].
  destruct (Z.ltb_spec 0 h) as [Hh | Hh]; cycle 1.
  { unfold run, forecast_frame, fit, get_forecast in Hrun.
    rewrite Hsm in Hrun. simpl in Hrun.
    rewrite (proj2 (Z.ltb_ge 0 h) Hh) in Hrun.
    by destruct (_ <? 0) in Hrun. }
  destruct (last (map Date rows)) as [d |] eqn:Hlast; cycle 1.
  { apply last_None, fmap_nil_inv in Hlast. subst rows.
    unfold run, forecast_frame, fit in Hrun. simpl in Hrun, Hsm.
    rewrite Hsm in Hrun. simpl in Hrun.
    by rewrite get_forecast_Ok in Hrun by done. }
  assert (rows ≠ []) as Hrows by (by intros ->).
  unfold run, forecast_frame in Hrun.
  rewrite (fit_Ok _ _ _ _ Hsm) in Hrun. simpl in Hrun.
  rewrite get_forecast_Ok in Hrun by done. simpl in Hrun.
  rewrite prepare_ds, (iloc_last_Some _ _ Hlast) in Hrun. simpl in Hrun.
  rewrite nobs_model_of, length_prepare in Hrun.
  unfold assemble in Hrun.
  destruct (forecast_index d h) as [dates | x] eqn:Hidx; [| done].
  apply forecast_index_inv in Hidx as (_ & Hd1 & Hfit & ->).
  simpl in Hrun.
  set (fv := map _ (seq (length rows) (Z.to_nat h))) in Hrun.
  destruct (DataFrame_Ok (days_from (d + 1) (Z.to_nat h)) fv)
    as (frame' & Hframe & Hl & Hds & Hlab & Hy).
  { unfold fv. by rewrite length_days_from, length_map, length_seq. }
  rewrite Hframe in Hrun. simpl in Hrun. injection Hrun as <- <-.
  split_and!; [done | done | done |].
  exists e, d. rewrite Hl, Hds, Hlab, Hy. unfold fv.
  rewrite length_map, length_seq, <- !list_fmap_compose.
  split_and!; try done. apply list_fmap_id.
Qed.

Lemma run_nil_raises sm h : raises (run sm [] h).
Proof.
  unfold run, forecast_frame, fit. simpl.
  destruct (sm (model_of [])) as [e | x]; simpl; [| by eexists].
  destruct (get_forecast _ h); simpl; by eexists.
Qed.

(** X7.  For rows whose dates are dates a [Timestamp] can hold, a forecast
    comes out exactly when the horizon is positive, the estimation
    returns, and the input is not empty with its last date plus the
    horizon not past the last day of a [Timestamp]; the observed frame is
    then the prepared input and the forecast frame has one row for each
    of the [h] days after the last observed date. *)
Theorem run_Ok_iff sm rows h :
  Forall is_Timestamp (map Date rows) →
  (is_Ok (run sm rows h)
   ↔ 0 < h ∧ is_Ok (sm (model_of (prepare rows)))
     ∧ ∃ d, last (map Date rows) = Some d ∧ d + h ≤ Timestamp_max)
  ∧ ∀ df_train (frame : list (ForecastRow price)),
      run sm rows h = Ok (df_train, frame) →
      df_train = prepare rows
      ∧ ∃ d, last (map Date rows) = Some d
             ∧ map f_ds frame = days_from (d + 1) (Z.to_nat h).
Proof.
  intros Hdates. split; [split |].
  - intros [[df_train frame] Hrun].
    apply run_inv in Hrun
      as (Hh & _ & _ & e & d & Hsm & Hlast & _ & Hfit & _).
    split_and!; [done | by exists e | by exists d].
  - intros (Hh & [e Hsm] & d & Hlast & Hfit).
    assert (is_Timestamp d) as Hd.
    { rewrite Forall_forall in Hdates. apply Hdates.
      rewrite last_lookup in Hlast. by eapply list_elem_of_lookup_2. }
    destruct (run_Ok sm rows h e d Hh Hlast Hd Hfit Hsm) as (frame & -> & _).
    by eexists.
  - intros df_train frame Hrun.
    apply run_inv in Hrun
      as (_ & _ & -> & e & d & _ & Hlast & _ & _ & _ & Hds & _).
    split; [done |]. by exists d.
Qed.

(** X8.  Inside the pipeline the length check of the frame constructor
    cannot fail: whatever [get_forecast] returns for a horizon fits the
    dates generated for the same horizon, so [assemble] never raises
    [ValueError] on it, and builds a frame of [h] rows whenever the dates
    are dates a [Timestamp] can hold. *)
Theorem assemble_after_get_forecast (results : MLEResults price) h
    (fv : list (nat * price)) (d : date) :
  get_forecast results h = Ok fv →
  assemble d h fv ≠ Raise ValueError
  ∧ (is_Timestamp d → d + h ≤ Timestamp_max →
     ∃ frame, assemble d h fv = Ok frame ∧ length frame = Z.to_nat h).
Proof.
  unfold get_forecast. destruct (Z.ltb_spec 0 h) as [Hh | Hh]; cycle 1.
  { by destruct (_ <? 0). }
  intros [= <-].
  set (fv := map _ (seq (nobs results) (Z.to_nat h))).
  assert (length fv = Z.to_nat h) as Hlen.
  { unfold fv. by rewrite length_map, length_seq. }
  split.
  - unfold assemble.
    destruct (forecast_index d h) as [dates | x] eqn:Hidx; simpl.
    + apply forecast_index_inv in Hidx as (_ & _ & _ & ->).
      destruct (DataFrame_Ok (days_from (d + 1) (Z.to_nat h)) fv)
        as (frame & -> & _); [by rewrite length_days_from | done].
    + unfold forecast_index, DateOffset, timestamp_add in Hidx.
      case_bool_decide; simpl in Hidx; [| by simplify_eq].
      unfold date_range in Hidx.
      destruct (Z.ltb_spec h 0); [lia |].
      case_bool_decide; by simplify_eq.
  - intros Hd Hfit.
    destruct (assemble_Ok d h fv) as (frame & Hrun & Hl & _);
      [done | done | done | lia |].
    exists frame. split; [done | congruence].
Qed.

(** X9.  What the script puts on the page changes nothing of its outcome:
    the cache it leaves and the frames or the exception it ends with are
    those of [main] without the rendering. *)
Theorem run_script_outcome TODAY notes download sm cache (pick : nat)
    (n_years : Z) :
  let '(w, outcome) :=
    run_script TODAY notes download sm cache pick n_years in
  (st_cache w, outcome) = main TODAY download sm cache pick n_years.
Proof.
  destruct (selectbox stocks pick ≫= getitem stocks_dictionary)
    as [code | x] eqn:Hcode.
  - destruct (selectbox stocks pick) as [name |] eqn:Hsel; [| done].
    simpl in Hcode.
    rewrite (run_script_valid _ _ _ _ _ _ _ _ _ Hsel Hcode).
    rewrite (main_valid _ _ _ _ _ _ _ _ Hsel Hcode). cbv zeta.
    destruct (load_stock_data TODAY download cache code)
      as [cache1 stock_data].
    unfold run. simpl.
    by destruct (forecast_frame sm (prepare stock_data) (period n_years)).
  - destruct (run_script_invalid TODAY notes download sm cache pick n_years
                x Hcode) as [Hc Ho].
    destruct (run_script TODAY notes download sm cache pick n_years)
      as [w outcome].
    simpl in Hc, Ho. subst. unfold main.
    change (λ s, getitem stocks_dictionary s)
      with (getitem stocks_dictionary).
    by rewrite Hcode.
Qed.

Ltac not_on_page H :=
  repeat match type of H with
  | _ ∈ _ :: _ => apply elem_of_cons in H as [H | H]; [by simplify_eq/= |]
  | _ ∈ _ ++ _ => apply elem_of_app in H as [H | H]
  | _ ∈ map _ _ => by apply list_elem_of_fmap in H as (? & ? & _)
  | _ ∈ [] => by apply elem_of_nil in H
  end.

Ltac on_page :=
  repeat first
    [ apply list_elem_of_here
    | apply list_elem_of_further
    | apply elem_of_app; right ].

(** X10.  For a selection of the catalogue the loading placeholder always
    ends as "Data Loaded ...".  The forecast placeholder ends as
    "Forecasting done ..." when the forecast succeeded.  When the
    forecasting part raised, the placeholder still reads "Forecasting
    data ..." and only the box with the exception follows it: no forecast
    table is shown.  This holds whatever [@st.cache] puts on the page. *)
Theorem placeholders_settle TODAY notes download sm cache (pick : nat)
    (n_years : Z) (name code : string) :
  selectbox stocks pick = Ok name →
  getitem stocks_dictionary name = Ok code →
  let '(w, outcome) :=
    run_script TODAY notes download sm cache pick n_years in
  Text (loaded_text name) ∈ screen w
  ∧ (Text (loading_text name) ∉ screen w)
  ∧ (is_Ok outcome →
       Text (done_text name) ∈ screen w
       ∧ (Text (forecasting_text name) ∉ screen w))
  ∧ (∀ x, outcome = Raise x →
       (∃ above, screen w
                 = above ++ [Text (forecasting_text name); ExceptionBox x])
       ∧ (Text (done_text name) ∉ screen w)
       ∧ ∀ table, WriteForecast table ∉ screen w).
Proof.
  intros Hsel Hget. rewrite (run_script_valid _ _ _ _ _ _ _ _ _ Hsel Hget).
  cbv zeta.
  destruct (load_stock_data TODAY download cache code) as [cache1 stock_data].
  generalize (notes (bool_decide (is_Some (cache !! (code, START, TODAY))))).
  intros shown.
  destruct (forecast_frame sm (prepare stock_data) (period n_years))
    as [frame | x];
    unfold page_top, page_forecast, loaded_text, loading_text, done_text,
      forecasting_text, quoted; cbn [screen app].
  - split_and!.
    + on_page.
    + intros H. not_on_page H.
    + intros _. split.
      * on_page.
      * intros H. not_on_page H.
    + intros x [=].
  - split_and!.
    + on_page.
    + intros H. not_on_page H.
    + intros [a Ha]. done.
    + intros x' [= <-]. split_and!.
      * eexists. rewrite !app_comm_cons. reflexivity.
      * intros H. not_on_page H.
      * intros table H. not_on_page H.
Qed.

(** X11.  With a horizon of at least five days the forecast table on the
    page shows the five last forecast rows: the dates [h - 4] to [h] days
    after the last observed date, labelled with the last five time
    indices. *)
Theorem forecast_table_rows sm rows h (df_train : list (TrainRow price))
    (frame : list (ForecastRow price)) (d : date) :
  run sm rows h = Ok (df_train, frame) →
  last (map Date rows) = Some d →
  5 ≤ h →
  map f_ds (tail5 frame) = days_from (d + h - 4) 5
  ∧ map f_label (tail5 frame) = seq (length rows + Z.to_nat h - 5) 5.
Proof.
  intros Hrun Hlast Hh.
  apply run_inv in Hrun
    as (_ & _ & _ & e & d' & _ & Hlast' & _ & _ & _ & Hds & Hlab & _).
  assert (d' = d) as -> by congruence.
  rewrite !tail5_fmap, Hds, Hlab.
  rewrite tail5_days_from, tail5_seq by lia.
  split; [f_equal; lia | done].
Qed.

(** X12.  In the forecast chart each trace has as many dates as values,
    the forecast trace has [h] points, and it starts on the day after the
    last date of the observed trace. *)
Theorem forecast_chart_contiguous sm rows h
    (df_train : list (TrainRow price)) (frame : list (ForecastRow price)) :
  run sm rows h = Ok (df_train, frame) →
  ∃ observed forecast d,
    fig_data (figure1 df_train frame) = [observed; forecast]
    ∧ length (sc_x observed) = length (sc_y observed)
    ∧ length (sc_x observed) = length rows
    ∧ length (sc_x forecast) = length (sc_y forecast)
    ∧ Z.of_nat (length (sc_x forecast)) = h
    ∧ last (sc_x observed) = Some d
    ∧ head (sc_x forecast) = Some (d + 1).
Proof.
  intros Hrun.
  apply run_inv in Hrun
    as (Hh & _ & -> & e & d & _ & Hlast & _ & _ & Hl & Hds & _).
  eexists _, _, d. split; [reflexivity |]. simpl.
  rewrite !length_map, length_prepare, prepare_ds, Hds.
  split_and!; try done; [lia |].
  apply days_from_head. lia.
Qed.

(** X13.  An empty download is cached like any other: when the provider
    returns no rows for a stock that is not yet cached for the day, the
    run raises, and so does every later run for that stock on the same
    day, whatever the provider returns then and whatever the slider says.
    On another day, not yet cached, the provider is asked again. *)
Theorem empty_download_is_cached TODAY download sm cache (pick : nat)
    (n_years : Z) (name code : string) :
  selectbox stocks pick = Ok name →
  getitem stocks_dictionary name = Ok code →
  cache !! (code, START, TODAY) = None →
  download code START TODAY = [] →
  let '(cache1, outcome) := main TODAY download sm cache pick n_years in
  raises outcome
  ∧ cache1 !! (code, START, TODAY) = Some []
  ∧ (∀ download' n_years',
       raises (main TODAY download' sm cache1 pick n_years').2)
  ∧ ∀ TODAY' download' n_years',
      TODAY' ≠ TODAY →
      cache !! (code, START, TODAY') = None →
      (main TODAY' download' sm cache1 pick n_years').2
      = run sm (download' code START TODAY') (period n_years').
Proof.
  intros Hsel Hget Hc Hd.
  rewrite (main_valid _ _ _ _ _ _ _ _ Hsel Hget).
  assert (load_stock_data TODAY download cache code
          = (<[(code, START, TODAY) := []]> cache, []))
    as -> by (unfold load_stock_data; by rewrite Hc, Hd).
  cbn [fst snd].
  split_and!.
  - apply run_nil_raises.
  - apply lookup_insert_eq.
  - intros download' n_years'.
    rewrite (main_valid _ _ _ _ _ _ _ _ Hsel Hget).
    unfold load_stock_data. rewrite lookup_insert_eq. cbn [fst snd].
    apply run_nil_raises.
  - intros TODAY' download' n_years' Hday Hc'.
    rewrite (main_valid _ _ _ _ _ _ _ _ Hsel Hget).
    unfold load_stock_data.
    rewrite lookup_insert_ne, Hc' by congruence. done.
Qed.

(** X14.  The horizon of [n_years] slider years is [n_years * 365] days,
    leap days not counted: the last forecast date lies on the same month
    and day [n_years] years after the last observed date or up to three
    days before it, never after it. *)
Theorem forecast_end_before_anniversary sm rows (n_years : Z)
    (df_train : list (TrainRow price)) (frame : list (ForecastRow price))
    (y m d : Z) :
  in_slider n_years →
  run sm rows (period n_years) = Ok (df_train, frame) →
  last (map Date rows) = Some (ymd2ord y m d) →
  ∃ end_date,
    last (map f_ds frame) = Some end_date
    ∧ end_date = ymd2ord y m d + n_years * 365
    ∧ 0 ≤ ymd2ord (y + n_years) m d - end_date ≤ 3.
Proof.
  unfold in_slider, slider_min, slider_max. intros Hn Hrun Hlast.
  apply run_inv in Hrun
    as (Hh & _ & _ & e & d' & _ & Hlast' & _ & _ & _ & Hds & _).
  assert (d' = ymd2ord y m d) as -> by congruence.
  unfold period in *.
  eexists. split; [| split].
  - rewrite Hds, last_days_from by lia. reflexivity.
  - lia.
  - pose proof (ymd2ord_years_later y m d n_years Hn). lia.
Qed.
End ScriptFacts.

(** ** The script at work *)

Ltac decide_it :=
  match goal with
  | |- ?P => apply (bool_decide_eq_true_1 P); vm_compute; reflexivity
  end.

Lemma main_cache_keys_witness :
  let cache : gmap (string * string * string) (list (Row Z)) :=
    {[("KO"%string, START, "2020-02-01"%string) := january_2020_weekly]} in
  let cache1 :=
    (main "2020-02-01" (λ _ _ _, january_2020) last_value_sm cache 7 3).1 in
  cache1 !! ("JPM"%string, START, "2020-02-01"%string) = Some january_2020
  ∧ "JPM"%string ∈ unsortedStocksCodes
  ∧ cache1 !! ("KO"%string, START, "2020-02-01"%string)
    = Some january_2020_weekly.
Proof.
  intros cache cache1.
  destruct (main_cache_keys "2020-02-01" (λ _ _ _, january_2020)
              last_value_sm cache 7 3) as [Hkeys Hold].
  { intros k [v Hv]. apply lookup_singleton_Some in Hv as [<- _].
    simpl. decide_it. }
  split_and!.
  - reflexivity.
  - apply (Hkeys ("JPM"%string, START, "2020-02-01"%string)).
    eexists. reflexivity.
  - apply Hold. apply lookup_singleton_eq.
Defined.

Lemma forecast_ignores_earlier_dates_witness :
  map Date january_2020_weekly ≠ map Date january_2020
  ∧ forecast_frame last_value_sm (prepare january_2020_weekly) 5
    = forecast_frame last_value_sm (prepare january_2020) 5.
Proof.
  split; [discriminate |].
  apply forecast_ignores_earlier_dates; reflexivity.
Defined.

Lemma january_2020_dates : Forall is_Timestamp (map Date january_2020).
Proof. decide_it. Qed.

Lemma december_2261_dates : Forall is_Timestamp (map Date december_2261).
Proof. decide_it. Qed.

Lemma run_Ok_iff_witness :
  is_Ok (run last_value_sm january_2020 5)
  ∧ ¬ is_Ok (run last_value_sm [] 5)
  ∧ ¬ is_Ok (run rejecting_sm january_2020 5)
  ∧ ¬ is_Ok (run last_value_sm december_2261 (period 1)).
Proof.
  split_and!.
  - apply (run_Ok_iff last_value_sm january_2020 5 january_2020_dates).
    split_and!; [lia | by eexists |].
    exists (ymd2ord 2020 1 31). split; [reflexivity | in_bounds].
  - intros H.
    apply (run_Ok_iff last_value_sm [] 5 (Forall_nil_2 _)) in H
      as (_ & _ & d & Hd & _).
    discriminate.
  - intros H.
    apply (run_Ok_iff rejecting_sm january_2020 5 january_2020_dates) in H
      as (_ & [e He] & _).
    discriminate.
  - intros H.
    apply (run_Ok_iff last_value_sm december_2261 (period 1)
             december_2261_dates) in H as (_ & _ & d & Hd & Hfit).
    vm_compute in Hd. injection Hd as <-. vm_compute in Hfit.
    exact (Hfit eq_refl).
Defined.

Lemma assemble_after_get_forecast_witness :
  ∃ frame,
    assemble (ymd2ord 2020 1 31) 3
      [(31%nat, 130); (32%nat, 130); (33%nat, 130)] = Ok frame
    ∧ length frame = 3%nat.
Proof.
  destruct (assemble_after_get_forecast
              {| res_model := model_of (prepare january_2020);
                 res_estimate := {| params := []; converged := true;
                                    predicted_mean_at := λ _, 130 |} |}
              3 [(31%nat, 130); (32%nat, 130); (33%nat, 130)]
              (ymd2ord 2020 1 31) eq_refl) as [_ H].
  apply H; in_bounds.
Defined.

Lemma placeholders_settle_witness :
  let w :=
    (run_script "2020-02-01" (λ _, ["Running load_stock_data(...)."])
       (λ _ _ _, january_2020) last_value_sm ∅ 7 1).1 in
  Text (price := Z) "Data Loaded for JPMorgan Chase & Co!" ∈ screen w
  ∧ Text "Forecasting done for 'JPMorgan Chase & Co'!" ∈ screen w.
Proof.
  pose proof (placeholders_settle "2020-02-01"
                (λ _, ["Running load_stock_data(...)."])
                (λ _ _ _, january_2020) last_value_sm ∅ 7 1
                "JPMorgan Chase & Co" "JPM" eq_refl eq_refl) as H.
  destruct (run_script _ _ _ _ _ _ _) as [w outcome] eqn:Hrun.
  destruct H as (Hloaded & _ & Hdone & _).
  split; [exact Hloaded |].
  apply Hdone.
  assert (outcome
          = (run_script "2020-02-01" (λ _, ["Running load_stock_data(...)."])
               (λ _ _ _, january_2020) last_value_sm ∅ 7 1).2)
    as -> by (by rewrite Hrun).
  eexists. vm_compute. reflexivity.
Defined.

Lemma forecast_table_rows_witness :
  ∃ df_train frame,
    run last_value_sm january_2020 365 = Ok (df_train, frame)
    ∧ map f_ds (tail5 frame)
      = [ymd2ord 2021 1 26; ymd2ord 2021 1 27; ymd2ord 2021 1 28;
         ymd2ord 2021 1 29; ymd2ord 2021 1 30]
    ∧ map f_label (tail5 frame) = [391; 392; 393; 394; 395]%nat.
Proof.
  destruct (run last_value_sm january_2020 365) as [[df_train frame] | x]
    eqn:Hrun; [| vm_compute in Hrun; discriminate].
  exists df_train, frame. split; [reflexivity |].
  destruct (forecast_table_rows last_value_sm january_2020 365 df_train
              frame (ymd2ord 2020 1 31) Hrun eq_refl) as [Hds Hlab];
    [lia |].
  rewrite Hds, Hlab. split; reflexivity.
Defined.

Lemma forecast_chart_contiguous_witness :
  ∃ df_train frame observed forecast,
    run last_value_sm january_2020 5 = Ok (df_train, frame)
    ∧ fig_data (figure1 df_train frame) = [observed; forecast]
    ∧ last (sc_x observed) = Some (ymd2ord 2020 1 31)
    ∧ head (sc_x forecast) = Some (ymd2ord 2020 2 1).
Proof.
  destruct (run last_value_sm january_2020 5) as [[df_train frame] | x]
    eqn:Hrun; [| vm_compute in Hrun; discriminate].
  destruct (forecast_chart_contiguous last_value_sm january_2020 5 df_train
              frame Hrun)
    as (observed & forecast & d & Hfig & _ & _ & _ & _ & Hlast & Hhead).
  exists df_train, frame, observed, forecast.
  assert (d = ymd2ord 2020 1 31) as ->.
  { assert (df_train = prepare january_2020) as ->
      by (vm_compute in Hrun; injection Hrun as <- _; reflexivity).
    simpl in Hfig. injection Hfig as <- _. simpl in Hlast.
    vm_compute in Hlast. injection Hlast as <-. reflexivity. }
  split_and!; [reflexivity | exact Hfig | exact Hlast | exact Hhead].
Defined.

Lemma empty_download_is_cached_witness :
  let cache1 := (main "2020-02-01" (λ _ _ _, []) last_value_sm ∅ 7 1).1 in
  raises (main "2020-02-01" (λ _ _ _, []) last_value_sm ∅ 7 1).2
  ∧ raises (main "2020-02-01" (λ _ _ _, january_2020) last_value_sm
              cache1 7 1).2
  ∧ is_Ok (main "2020-02-02" (λ _ _ _, january_2020) last_value_sm
             cache1 7 1).2.
Proof.
  pose proof (empty_download_is_cached "2020-02-01" (λ _ _ _, [])
                last_value_sm ∅ 7 1 "JPMorgan Chase & Co" "JPM"
                eq_refl eq_refl eq_refl eq_refl) as H.
  destruct (main "2020-02-01" (λ _ _ _, []) last_value_sm ∅ 7 1)
    as [cache1 outcome].
  destruct H as (Hraise & _ & Hlater & Hother).
  split_and!; [exact Hraise | apply Hlater |].
  cbn [fst]. rewrite Hother; [| discriminate | reflexivity].
  eexists. vm_compute. reflexivity.
Defined.

Lemma forecast_end_before_anniversary_witness :
  ∃ df_train frame,
    run last_value_sm january_2020 (period 1) = Ok (df_train, frame)
    ∧ last (map f_ds frame) = Some (ymd2ord 2021 1 30)
    ∧ ymd2ord 2021 1 31 - ymd2ord 2021 1 30 = 1.
Proof.
  destruct (run last_value_sm january_2020 (period 1))
    as [[df_train frame] | x] eqn:Hrun; [| vm_compute in Hrun; discriminate].
  exists df_train, frame. split; [reflexivity |].
  destruct (forecast_end_before_anniversary last_value_sm january_2020 1
              df_train frame 2020 1 31) as (end_date & Hend & -> & _).
  - unfold in_slider, slider_min, slider_max. lia.
  - exact Hrun.
  - reflexivity.
  - split; [exact Hend | reflexivity].
Defined.
